(** * Raster window extraction and tree-table queries

    A shallow embedding of [utils/raster.py] and [utils/treemap.py].

    - Python exceptions are values of [exn]; a call that may raise returns a
      [result].
    - Raster and geometry coordinates are [float64] in the source.  They are
      idealised here as exact rationals ([Q]): rounding, infinities and NaN
      of coordinates are outside the model.
    - The numeric columns of the tree table keep their binary64 semantics
      ([PrimFloat]); a missing value of a float column is NaN, as in pandas.
    - [fastfuels_core]'s [TreeSample] is outside the repository as well:
      what its schema refuses is a parameter, and the code's result is the
      sample it returns or the exception it raises.
    - rioxarray, geopandas and dask are collaborators of the code, not part
      of it.  Their operations are the fields of the [Backend] class; every
      call the code makes to one of the geometry or raster primitives is
      recorded in a call log, so that "this call does not happen" can be
      stated. *)

From Stdlib Require Import List String Ascii Bool ZArith QArith Qabs Lia Lqa.
From Stdlib Require Import PrimFloat.
Import ListNotations.

Set Implicit Arguments.
Set Warnings "-inexact-float".

(** ** Python exceptions and results *)

Inductive exn_class : Type :=
| ValueError
| NotImplementedError
| FileNotFoundError
| AttributeError
| ForeignError (name : string).

Record exn : Type := Exn { exn_cls : exn_class; exn_msg : string }.

Inductive result (A : Type) : Type :=
| Ok (a : A)
| Raise (e : exn).

Arguments Ok {A} a.
Arguments Raise {A} e.

Class Monad (m : Type -> Type) : Type := {
  ret : forall {A}, A -> m A;
  bind : forall {A B}, m A -> (A -> m B) -> m B
}.

Notation "x <- c ;; k" := (bind c (fun x => k))
  (at level 61, c at next level, right associativity).

#[export] Instance result_monad : Monad result := {
  ret := fun A a => Ok a;
  bind := fun A B c k => match c with Ok a => k a | Raise e => Raise e end
}.

(** ** Bounding boxes

    rasterio's [bounds()] and geopandas' [total_bounds] are both
    [(minx, miny, maxx, maxy)]; index [0..3] of the source is the field of
    the same position. *)

Record BBox : Type := mkBBox { minx : Q; miny : Q; maxx : Q; maxy : Q }.

(** ** The collaborating libraries *)

Class Backend : Type := {
  CRS : Type;
  CRS_eqb : CRS -> CRS -> bool;
  CRS_eqb_eq : forall a b, CRS_eqb a b = true <-> a = b;
  (* geopandas *)
  GeoDataFrame : Type;
  gdf_crs : GeoDataFrame -> CRS;
  gdf_to_crs : GeoDataFrame -> CRS -> result GeoDataFrame;
  gdf_total_bounds : GeoDataFrame -> BBox;
  (* rioxarray *)
  DataArray : Type;
  Dtype : Type;
  open_rasterio : string -> result DataArray;
  rio_crs : DataArray -> CRS;
  rio_resolution : DataArray -> Q * Q;
  rio_bounds : DataArray -> BBox;
  da_dtype : DataArray -> Dtype;
  rio_clip_box : DataArray -> BBox -> result DataArray;
  rio_reproject : DataArray -> CRS -> result DataArray
}.

(** ** Logged calls *)

Section Calls.
Context {B : Backend}.

Inductive call : Type :=
| CallToCrs (roi : GeoDataFrame) (target : CRS)
| CallClipBox (src : DataArray) (box : BBox)
| CallReproject (src : DataArray) (target : CRS).

(** A computation that logs its backend calls and then returns or
    raises. *)
Definition M (A : Type) : Type := (list call * result A)%type.

Definition calls {A} (m : M A) : list call := fst m.
Definition value {A} (m : M A) : result A := snd m.

Definition M_bind {A C} (c : M A) (k : A -> M C) : M C :=
  match c with
  | (log, Ok a) => let (log', r) := k a in (log ++ log', r)
  | (log, Raise e) => (log, Raise e)
  end.

#[export] Instance M_monad : Monad M := {
  ret := fun A a => ([], Ok a);
  bind := fun A C c k => M_bind c k
}.

Definition to_crs (roi : GeoDataFrame) (target : CRS) : M GeoDataFrame :=
  ([CallToCrs roi target], gdf_to_crs roi target).

Definition clip_box (src : DataArray) (box : BBox) : M DataArray :=
  ([CallClipBox src box], rio_clip_box src box).

Definition reproject (src : DataArray) (target : CRS) : M DataArray :=
  ([CallReproject src target], rio_reproject src target).

Definition is_reprojection (c : call) : bool :=
  match c with
  | CallToCrs _ _ | CallReproject _ _ => true
  | CallClipBox _ _ => false
  end.
End Calls.

(** ** utils/raster.py *)

Module RasterConnection.
Section WithBackend.
Context {B : Backend}.

Definition allowed_connection_types : list string := ["rioxarray"%string].

(** The attributes [__init__] sets inside [if connection_type ==
    "rioxarray"]. *)
Record attrs : Type := {
  raster : DataArray;
  raster_crs : CRS;
  raster_resolution : Q;
  raster_bounds : BBox;
  raster_dtype : Dtype
}.

Record t : Type := {
  connection_type : string;
  opened : option attrs
}.

(** Reading [self.raster], [self.raster_crs], ... *)
Definition getattrs (self : t) : result attrs :=
  match opened self with
  | Some a => Ok a
  | None =>
      Raise (Exn AttributeError
               "'RasterConnection' object has no attribute 'raster'")
  end.

Definition __init__ (raster_path : string) (connection_type : string)
  : result t :=
  if negb (existsb (String.eqb connection_type) allowed_connection_types)
  then Raise (Exn ValueError
                ("Connection type " ++ connection_type ++ " not supported."))
  else
    if String.eqb connection_type "rioxarray" then
      raster <- open_rasterio raster_path ;;
      ret {| connection_type := connection_type;
             opened := Some {|
               raster := raster;
               raster_crs := rio_crs raster;
               raster_resolution := Qabs (fst (rio_resolution raster));
               raster_bounds := rio_bounds raster;
               raster_dtype := da_dtype raster |} |}
    else
      ret {| connection_type := connection_type; opened := None |}.

Definition lift {A} (r : result A) : M A := ([], r).

Definition roi_within_raster_bounds (self : t) (roi : GeoDataFrame)
  : M bool :=
  a <- lift (getattrs self) ;;
  roi_reprojected <- to_crs roi (raster_crs a) ;;
  let roi_bounds := gdf_total_bounds roi_reprojected in
  ret (Qle_bool (minx (raster_bounds a)) (minx roi_bounds)
       && Qle_bool (miny (raster_bounds a)) (miny roi_bounds)
       && Qle_bool (maxx roi_bounds) (maxx (raster_bounds a))
       && Qle_bool (maxy roi_bounds) (maxy (raster_bounds a))).

Definition _extract_window_rioxarray (self : t) (roi : GeoDataFrame)
    (projection_padding_meters : Q) (interpolation_padding_cells : Z)
  : M DataArray :=
  a <- lift (getattrs self) ;;
  roi_bounds <-
    (if negb (CRS_eqb (gdf_crs roi) (raster_crs a)) then
       roi_reprojected <- to_crs roi (raster_crs a) ;;
       ret (gdf_total_bounds roi_reprojected)
     else ret (gdf_total_bounds roi)) ;;
  let roi_padded_bounds :=
    {| minx := minx roi_bounds - projection_padding_meters;
       miny := miny roi_bounds - projection_padding_meters;
       maxx := maxx roi_bounds + projection_padding_meters;
       maxy := maxy roi_bounds + projection_padding_meters |} in
  window <- clip_box (raster a) roi_padded_bounds ;;
  window_reprojected <-
    (if negb (CRS_eqb (gdf_crs roi) (raster_crs a)) then
       reproject window (gdf_crs roi)
     else ret window) ;;
  let roi_padded :=
    {| minx := minx (gdf_total_bounds roi)
               - inject_Z interpolation_padding_cells * raster_resolution a;
       miny := miny (gdf_total_bounds roi)
               - inject_Z interpolation_padding_cells * raster_resolution a;
       maxx := maxx (gdf_total_bounds roi)
               + inject_Z interpolation_padding_cells * raster_resolution a;
       maxy := maxy (gdf_total_bounds roi)
               + inject_Z interpolation_padding_cells * raster_resolution a
    |} in
  clip <- clip_box window_reprojected roi_padded ;;
  ret clip.

(** A Python function that runs off its end returns [None]. *)
Definition extract_window (self : t) (roi : GeoDataFrame)
    (projection_padding_meters : Q) (interpolation_padding_cells : Z)
  : M (option DataArray) :=
  if String.eqb (connection_type self) "rioxarray" then
    w <- _extract_window_rioxarray self roi projection_padding_meters
           interpolation_padding_cells ;;
    ret (Some w)
  else ret None.

End WithBackend.
End RasterConnection.

(** ** utils/treemap.py *)

(** [str.endswith] *)
Fixpoint startswith (s prefix : string) : bool :=
  match prefix, s with
  | EmptyString, _ => true
  | String p prefix', String c s' => Ascii.eqb p c && startswith s' prefix'
  | String _ _, EmptyString => false
  end.

Fixpoint rev_string (s acc : string) : string :=
  match s with
  | EmptyString => acc
  | String c s' => rev_string s' (String c acc)
  end.

Definition endswith (s suffix : string) : bool :=
  startswith (rev_string s EmptyString) (rev_string suffix EmptyString).

(** [try: body except FileNotFoundError: handler] *)
Definition try_except_FileNotFoundError {A} (body handler : result A)
  : result A :=
  match body with
  | Ok a => Ok a
  | Raise e =>
      match exn_cls e with
      | FileNotFoundError => handler
      | _ => Raise e
      end
  end.

(** The tree table as dask reads it.  Every row carries its index label;
    [dd.read_csv] numbers the rows of each partition from 0.  A table
    carries the linkage column of its version ([tl_id] for 2014, [tm_id]
    for 2016). *)
Module Table.
Record row : Type := {
  index : Z;
  tl_id : Z;
  tm_id : Z;
  SPCD : Z;
  STATUSCD : Z;
  DIA : float;
  HT : float;
  ACTUALHT : float;
  CR : float;
  TPA_UNADJ : float
}.
End Table.

(** [trees_delayed] after the projection of lines 83-95; [key] is the column
    named [self._tl_key]. *)
Module Delayed.
Record row : Type := {
  TREE_ID : Z;
  key : Z;
  SPCD : Z;
  STATUSCD : Z;
  DIA : float;
  HT : float;
  ACTUALHT : float;
  CR : float;
  TPA_UNADJ : float
}.
End Delayed.

(** [trees], the frame handed to the converter (imperial units). *)
Module Trees.
Record row : Type := {
  TREE_ID : Z;
  PLOT_ID : Z;
  SPCD : Z;
  STATUSCD : Z;
  DIA : float;
  HT : float;
  CR : float;
  TPA_UNADJ : float
}.
End Trees.

(** [metric_data], the frame inside the returned [TreeSample]. *)
Module Metric.
Record row : Type := {
  TREE_ID : Z;
  PLOT_ID : Z;
  SPCD : Z;
  STATUSCD : Z;
  DIA : float;
  HT : float;
  CR : float;
  TPA : float
}.
End Metric.

Module Plots.
Record row : Type := { PLOT_ID : Z; geometry : Q * Q }.
End Plots.

(** A pandas frame as the converter and [TreeSample] receive it: its
    index and its rows. *)
Record DataFrame (A : Type) : Type := {
  frame_index : list Z;
  frame_rows : list A
}.

(** [fastfuels_core.trees.TreeSample] is not part of this repository.  Its
    constructor checks the frame against the library's schema, and keeps
    the frame or raises; whether and with what the schema refuses a frame
    is the backend's [schema_refuses]. *)
Class SampleBackend : Type := {
  schema_refuses : DataFrame Metric.row -> option exn
}.

Record TreeSample : Type := { data : DataFrame Metric.row }.

(** [TreeSample(metric_data)] *)
Definition TreeSample__init__ {S : SampleBackend}
    (metric_data : DataFrame Metric.row) : result TreeSample :=
  match schema_refuses metric_data with
  | Some e => Raise e
  | None => Ok {| data := metric_data |}
  end.

Class TabularBackend : Type := {
  dd_read_csv : string -> result (list Table.row);
  dd_read_parquet : string -> result (list Table.row)
}.

(** How dask has split a table into partitions, in order. *)
Class DaskLayout : Type := {
  partitions_of : list Table.row -> list (list Table.row);
  partitions_concat :
    forall table, List.concat (partitions_of table) = table
}.

(** [Series.notnull()] on a float column *)
Definition notnull (x : float) : bool := negb (PrimFloat.is_nan x).

(** [Series.unique()]: the distinct values in order of first appearance *)
Fixpoint unique_from (seen l : list Z) : list Z :=
  match l with
  | [] => []
  | x :: l' =>
      if existsb (Z.eqb x) seen then unique_from seen l'
      else x :: unique_from (x :: seen) l'
  end.

Definition unique (l : list Z) : list Z := unique_from [] l.

(** [Series.isin(values)] at one row *)
Definition isin (values : list Z) (x : Z) : bool := existsb (Z.eqb x) values.

(** Lines 123-137: the frame [metric_data], a copy of [data] with the
    same index and the four columns rescaled row by row. *)
Definition metric_data_of (data : DataFrame Trees.row)
  : DataFrame Metric.row :=
  {| frame_index := frame_index data;
     frame_rows :=
       map (fun r => {| Metric.TREE_ID := Trees.TREE_ID r;
                        Metric.PLOT_ID := Trees.PLOT_ID r;
                        Metric.SPCD := Trees.SPCD r;
                        Metric.STATUSCD := Trees.STATUSCD r;
                        Metric.CR := (Trees.CR r / 100)%float;
                        Metric.HT := (Trees.HT r * 0.3048)%float;
                        Metric.DIA := (Trees.DIA r * 2.54)%float;
                        Metric.TPA :=
                          (Trees.TPA_UNADJ r * 2.47105 / 10000)%float |})
         (frame_rows data) |}.

Definition convert_treemap_data_to_fastfuels {S : SampleBackend}
    (data : DataFrame Trees.row) : result TreeSample :=
  let metric_data := metric_data_of data in
  TreeSample__init__ metric_data.

Module TreeMapConnection.
Section WithBackend.
Context {B : Backend} {T : TabularBackend}.

Record t : Type := {
  base : RasterConnection.t;
  version : string;
  _tl_key : string;
  raster_path : string;
  table_path : string;
  _tree_table : list Table.row
}.

Definition __init__ (treemap_path tree_table_path version : string)
  : result t :=
  if negb (existsb (String.eqb version) ["2014"; "2016"]%string) then
    Raise (Exn ValueError ("Invalid version: " ++ version))
  else
    let _tl_key :=
      (if String.eqb version "2014" then "tl_id" else "tm_id")%string in
    let raster_path := treemap_path in
    base <- RasterConnection.__init__ raster_path "rioxarray" ;;
    let table_path := tree_table_path in
    tree_table <-
      try_except_FileNotFoundError
        (if endswith table_path ".csv" then dd_read_csv table_path
         else if endswith table_path ".parquet" then
           dd_read_parquet table_path
         else
           Raise (Exn NotImplementedError
                    ("Unsupported file format for tree table: "
                     ++ table_path)))
        (Raise (Exn FileNotFoundError
                  ("Invalid tree table path: " ++ table_path))) ;;
    ret {| base := base;
           version := version;
           _tl_key := _tl_key;
           raster_path := raster_path;
           table_path := table_path;
           _tree_table := tree_table |}.

(** [self._tree_table[self._tl_key]] at one row *)
Definition linkage (self : t) (r : Table.row) : Z :=
  if String.eqb (_tl_key self) "tl_id" then Table.tl_id r
  else Table.tm_id r.

(** Lines 80-82: the semi-join, then [reset_index()], which turns the
    index label every surviving row had in the table into the column
    [index], renamed [TREE_ID]; lines 83-95 project the columns. *)
Definition filtered (self : t) (plots : list Plots.row)
  : list Delayed.row :=
  let plot_ids := unique (map Plots.PLOT_ID plots) in
  let trees_delayed :=
    filter (fun r => isin plot_ids (linkage self r)) (_tree_table self) in
  map (fun r => {| Delayed.TREE_ID := Table.index r;
                   Delayed.key := linkage self r;
                   Delayed.SPCD := Table.SPCD r;
                   Delayed.STATUSCD := Table.STATUSCD r;
                   Delayed.DIA := Table.DIA r;
                   Delayed.HT := Table.HT r;
                   Delayed.ACTUALHT := Table.ACTUALHT r;
                   Delayed.CR := Table.CR r;
                   Delayed.TPA_UNADJ := Table.TPA_UNADJ r |})
      trees_delayed.

(** Lines 96-98: [ACTUALHT.where(ACTUALHT.notnull(), HT)] keeps the
    value of [ACTUALHT] where the condition holds and takes [HT]
    elsewhere, row by row. *)
Definition resolve_height (trees_delayed : list Delayed.row)
  : list Delayed.row :=
  map (fun r => {| Delayed.TREE_ID := Delayed.TREE_ID r;
                   Delayed.key := Delayed.key r;
                   Delayed.SPCD := Delayed.SPCD r;
                   Delayed.STATUSCD := Delayed.STATUSCD r;
                   Delayed.DIA := Delayed.DIA r;
                   Delayed.HT :=
                     if notnull (Delayed.ACTUALHT r) then Delayed.ACTUALHT r
                     else Delayed.HT r;
                   Delayed.ACTUALHT := Delayed.ACTUALHT r;
                   Delayed.CR := Delayed.CR r;
                   Delayed.TPA_UNADJ := Delayed.TPA_UNADJ r |})
      trees_delayed.

(** Lines 99-101: drop [ACTUALHT], compute, rename the key column. *)
Definition materialize (trees_delayed : list Delayed.row)
  : list Trees.row :=
  map (fun r => {| Trees.TREE_ID := Delayed.TREE_ID r;
                   Trees.PLOT_ID := Delayed.key r;
                   Trees.SPCD := Delayed.SPCD r;
                   Trees.STATUSCD := Delayed.STATUSCD r;
                   Trees.DIA := Delayed.DIA r;
                   Trees.HT := Delayed.HT r;
                   Trees.CR := Delayed.CR r;
                   Trees.TPA_UNADJ := Delayed.TPA_UNADJ r |})
      trees_delayed.

(** The frame [trees] of line 101, before the unit conversion. *)
Definition trees_of (self : t) (plots : list Plots.row) : list Trees.row :=
  materialize (resolve_height (filtered self plots)).

Context {S : SampleBackend} {L : DaskLayout}.

(** The index of [trees]: [reset_index()] (line 82) numbers the surviving
    rows of each partition from 0, and [compute()] (line 100) puts the
    partitions one after the other. *)
Definition computed_index (self : t) (plots : list Plots.row) : list Z :=
  let plot_ids := unique (map Plots.PLOT_ID plots) in
  List.concat
    (map (fun partition =>
            map Z.of_nat
              (seq 0 (List.length
                        (filter (fun r => isin plot_ids (linkage self r))
                           partition))))
       (partitions_of (_tree_table self))).

(** [trees] with its index, as line 103 hands it to the converter. *)
Definition trees (self : t) (plots : list Plots.row)
  : DataFrame Trees.row :=
  {| frame_index := computed_index self plots;
     frame_rows := trees_of self plots |}.

Definition query_trees_by_plots (self : t) (plots : list Plots.row)
  : result TreeSample :=
  convert_treemap_data_to_fastfuels (trees self plots).

End WithBackend.
End TreeMapConnection.

(** ** Vocabulary of the statements *)

(** [b] lies within [outer] on all four sides, bounds included. *)
Definition box_within (b outer : BBox) : Prop :=
  (minx outer <= minx b /\ miny outer <= miny b
   /\ maxx b <= maxx outer /\ maxy b <= maxy outer)%Q.

Definition box_wf (b : BBox) : Prop :=
  (minx b <= maxx b /\ miny b <= maxy b)%Q.

Definition corners (b : BBox) : list (Q * Q) :=
  [(minx b, miny b); (minx b, maxy b); (maxx b, miny b); (maxx b, maxy b)].

Definition point_in (p : Q * Q) (outer : BBox) : Prop :=
  (minx outer <= fst p /\ fst p <= maxx outer
   /\ miny outer <= snd p /\ snd p <= maxy outer)%Q.

(** [b] grown by [d] on every side. *)
Definition pad (b : BBox) (d : Q) : BBox :=
  {| minx := minx b - d; miny := miny b - d;
     maxx := maxx b + d; maxy := maxy b + d |}.

Section SameCrs.
Context {B : Backend}.

(** The computation the specification describes for an ROI that is
    already in the raster's CRS: clip the raster to the ROI's own box
    grown by the projection padding, then clip that window to the box
    grown by the interpolation padding, with no reprojection. *)
Definition extract_window_same_crs (a : RasterConnection.attrs)
    (roi : GeoDataFrame) (projection_padding : Q)
    (interpolation_padding : Z) : M DataArray :=
  window <- clip_box (RasterConnection.raster a)
              (pad (gdf_total_bounds roi) projection_padding) ;;
  clip_box window
    (pad (gdf_total_bounds roi)
       (inject_Z interpolation_padding
        * RasterConnection.raster_resolution a)).
End SameCrs.

(** Two raised exceptions are of different classes. *)
Definition kinds_differ {A C} (r1 : result A) (r2 : result C) : Prop :=
  match r1, r2 with
  | Raise e1, Raise e2 => exn_cls e1 <> exn_cls e2
  | _, _ => False
  end.

(** The ids [0, 1, ..., n-1] that numbering a frame by position gives. *)
Definition positional (ids : list Z) : Prop :=
  ids = map Z.of_nat (seq 0 (List.length ids)).

(** The schema of [TreeSample] wants a unique index: a frame it does not
    refuse has no label twice in its index. *)
Definition wants_unique_index (S : SampleBackend) : Prop :=
  forall frame : DataFrame Metric.row,
    schema_refuses frame = None -> NoDup (frame_index frame).

(** No index label occurs twice within one partition of the table, as
    when [dd.read_csv] has numbered the rows of each partition from 0. *)
Definition labels_distinct_in_partitions {L : DaskLayout}
    (table : list Table.row) : Prop :=
  Forall (fun partition => NoDup (map Table.index partition))
    (partitions_of table).

(** Equal up to rounding noise. *)
Definition close (x y : float) : bool := (abs (x - y) <=? 1e-12)%float.

Section TreeVocabulary.
Context {B : Backend} {T : TabularBackend}.

(** The rows of the tree table whose linkage key is the [PLOT_ID] of one
    of the plots, in table order. *)
Definition surviving (self : TreeMapConnection.t) (plots : list Plots.row)
  : list Table.row :=
  filter (fun r =>
            if in_dec Z.eq_dec (TreeMapConnection.linkage self r)
                 (map Plots.PLOT_ID plots)
            then true else false)
    (TreeMapConnection._tree_table self).

(** Height of an output row against the table row it comes from. *)
Definition coalesced (src : Table.row) (out : Trees.row) : Prop :=
  (notnull (Table.ACTUALHT src) = true ->
   Trees.HT out = Table.ACTUALHT src)
  /\ (notnull (Table.ACTUALHT src) = false ->
      Trees.HT out = Table.HT src).

(** A metric row against the imperial row it comes from. *)
Definition normalized (src : Trees.row) (out : Metric.row) : Prop :=
  Metric.CR out = (Trees.CR src / 100)%float
  /\ Metric.HT out = (Trees.HT src * 0.3048)%float
  /\ Metric.DIA out = (Trees.DIA src * 2.54)%float
  /\ Metric.TPA out = (Trees.TPA_UNADJ src * 2.47105 / 10000)%float
  /\ Metric.TREE_ID out = Trees.TREE_ID src
  /\ Metric.PLOT_ID out = Trees.PLOT_ID src
  /\ Metric.SPCD out = Trees.SPCD src
  /\ Metric.STATUSCD out = Trees.STATUSCD src.
End TreeVocabulary.

(** The laws of a raster library under which growing a clip box cannot
    shrink the clipped raster: some ordering [sub] of rasters ("covers no
    more than") is respected by clipping and by reprojection. *)
Record coverage_order {B : Backend} (sub : DataArray -> DataArray -> Prop)
  : Prop := {
  sub_refl : forall r, sub r r;
  sub_bounds : forall w w',
      sub w w' -> box_within (rio_bounds w) (rio_bounds w');
  clip_mono : forall w w' b b' c,
      sub w w' -> box_within b b' -> rio_clip_box w b = Ok c ->
      exists c', rio_clip_box w' b' = Ok c' /\ sub c c';
  reproject_mono : forall w w' target v,
      sub w w' -> rio_reproject w target = Ok v ->
      exists v', rio_reproject w' target = Ok v' /\ sub v v'
}.

(** ** A small backend to run the code on

    Rasters and ROIs are rectangles; CRS [k] is the plane shifted by [k]
    along both axes.  Clipping intersects, and finds no data when the
    intersection is empty. *)
Module Flat.
Record gdf : Type := { g_crs : Z; g_bounds : BBox }.
Record da : Type := { d_crs : Z; d_bounds : BBox; d_res : Q * Q }.

Definition shift (d : Z) (b : BBox) : BBox :=
  {| minx := minx b + inject_Z d; miny := miny b + inject_Z d;
     maxx := maxx b + inject_Z d; maxy := maxy b + inject_Z d |}.

Definition qmax (a b : Q) : Q := if Qle_bool a b then b else a.
Definition qmin (a b : Q) : Q := if Qle_bool a b then a else b.

Definition inter (a b : BBox) : BBox :=
  {| minx := qmax (minx a) (minx b); miny := qmax (miny a) (miny b);
     maxx := qmin (maxx a) (maxx b); maxy := qmin (maxy a) (maxy b) |}.

Definition clip (src : da) (box : BBox) : result da :=
  let b := inter (d_bounds src) box in
  if Qle_bool (minx b) (maxx b) && Qle_bool (miny b) (maxy b) then
    Ok {| d_crs := d_crs src; d_bounds := b; d_res := d_res src |}
  else Raise (Exn (ForeignError "NoDataInBounds") "No data found in bounds.").

Definition raster0 : da :=
  {| d_crs := 0;
     d_bounds := {| minx := 0; miny := 0; maxx := 3000; maxy := 3000 |};
     d_res := (30, - (30))%Q |}.

Definition open (path : string) : result da :=
  if String.eqb path "treemap.tif" then Ok raster0
  else Raise (Exn (ForeignError "RasterioIOError")
                (path ++ ": No such file or directory")).

#[export] Instance backend : Backend := {
  CRS := Z;
  CRS_eqb := Z.eqb;
  CRS_eqb_eq := Z.eqb_eq;
  GeoDataFrame := gdf;
  gdf_crs := g_crs;
  gdf_to_crs := fun g target =>
    Ok {| g_crs := target;
          g_bounds := shift (target - g_crs g) (g_bounds g) |};
  gdf_total_bounds := g_bounds;
  DataArray := da;
  Dtype := unit;
  open_rasterio := open;
  rio_crs := d_crs;
  rio_resolution := d_res;
  rio_bounds := d_bounds;
  da_dtype := fun _ => tt;
  rio_clip_box := clip;
  rio_reproject := fun src target =>
    Ok {| d_crs := target;
          d_bounds := shift (target - d_crs src) (d_bounds src);
          d_res := d_res src |}
}.

(** One raster covers no more than another. *)
Definition sub (w w' : da) : Prop :=
  d_crs w = d_crs w' /\ d_res w = d_res w'
  /\ box_within (d_bounds w) (d_bounds w').

Definition row (i key : Z) (dia ht actualht cr tpa : float) : Table.row :=
  {| Table.index := i; Table.tl_id := key; Table.tm_id := key;
     Table.SPCD := 202; Table.STATUSCD := 1;
     Table.DIA := dia; Table.HT := ht; Table.ACTUALHT := actualht;
     Table.CR := cr; Table.TPA_UNADJ := tpa |}.

Definition tree_table : list Table.row :=
  [ row 0 5 10 20 nan 50 100;
    row 1 7 8 15 12 40 6;
    row 2 5 12 15 nan 35 6 ]%float.

Definition read (path : string) : result (list Table.row) :=
  if String.eqb path "trees.csv" || String.eqb path "trees.parquet" then
    Ok tree_table
  else Raise (Exn FileNotFoundError
                ("[Errno 2] No such file or directory: " ++ path)).

#[export] Instance tabular : TabularBackend := {
  dd_read_csv := read;
  dd_read_parquet := read
}.

(** [dd.read_csv] numbers the rows of every partition from 0: a partition
    starts at each row labelled 0. *)
Fixpoint csv_partitions (table : list Table.row) : list (list Table.row) :=
  match table with
  | [] => []
  | r :: rest =>
      let others := csv_partitions rest in
      match rest with
      | [] => [[r]]
      | next :: _ =>
          if (Table.index next =? 0)%Z then [r] :: others
          else
            match others with
            | partition :: others' => (r :: partition) :: others'
            | [] => [[r]]
            end
      end
  end.

Lemma csv_partitions_concat (table : list Table.row) :
  List.concat (csv_partitions table) = table.
Proof.
  induction table as [| r rest IH]; [reflexivity |].
  cbn [csv_partitions]. destruct rest as [| next rest']; [reflexivity |].
  destruct (Table.index next =? 0)%Z.
  - cbn [List.concat app]. now rewrite IH.
  - destruct (csv_partitions (next :: rest')) as [| partition others];
      [discriminate |].
    cbn [List.concat app] in *. now rewrite IH.
Qed.

#[export] Instance layout : DaskLayout := {
  partitions_of := csv_partitions;
  partitions_concat := csv_partitions_concat
}.

Fixpoint has_duplicates (l : list Z) : bool :=
  match l with
  | [] => false
  | x :: l' => existsb (Z.eqb x) l' || has_duplicates l'
  end.

(** A schema that wants a unique index and trees of at most 116 m. *)
Definition schema_check (frame : DataFrame Metric.row) : option exn :=
  if has_duplicates (frame_index frame) then
    Some (Exn (ForeignError "SchemaError")
            "series contains duplicate values")
  else if forallb (fun r => (Metric.HT r <=? 116)%float) (frame_rows frame)
  then None
  else
    Some (Exn (ForeignError "SchemaError")
            "HT failed element-wise validator less_than_or_equal_to(116)").

#[export] Instance schema : SampleBackend := {
  schema_refuses := schema_check
}.

Definition conn_attrs : RasterConnection.attrs :=
  {| RasterConnection.raster := raster0;
     RasterConnection.raster_crs := 0%Z;
     RasterConnection.raster_resolution := 30;
     RasterConnection.raster_bounds := d_bounds raster0;
     RasterConnection.raster_dtype := tt |}.

(** The connection [RasterConnection("treemap.tif")] builds. *)
Definition conn : RasterConnection.t :=
  {| RasterConnection.connection_type := "rioxarray";
     RasterConnection.opened := Some conn_attrs |}.

Definition fallback : result da -> da :=
  fun r => match r with Ok w => w | Raise _ => raster0 end.

(** The connection [TreeMapConnection("treemap.tif", "trees.csv", "2014")]
    builds. *)
Definition tm_conn : TreeMapConnection.t :=
  {| TreeMapConnection.base := conn;
     TreeMapConnection.version := "2014";
     TreeMapConnection._tl_key := "tl_id";
     TreeMapConnection.raster_path := "treemap.tif";
     TreeMapConnection.table_path := "trees.csv";
     TreeMapConnection._tree_table := tree_table |}.

(** The same file read in two partitions: dask numbers the rows of each
    partition from 0. *)
Definition tm_conn_two_partitions : TreeMapConnection.t :=
  {| TreeMapConnection.base := conn;
     TreeMapConnection.version := "2014";
     TreeMapConnection._tl_key := "tl_id";
     TreeMapConnection.raster_path := "treemap.tif";
     TreeMapConnection.table_path := "trees.csv";
     TreeMapConnection._tree_table :=
       [ row 0 5 10 20 nan 50 100; row 1 7 8 15 12 40 6 ]%float
       ++ [ row 0 5 12 15 nan 35 6; row 1 7 9 30 28 45 6 ]%float |}.

(** A file read in two partitions, with the trees of plot 9 all in the
    second. *)
Definition tm_conn_plot_9_apart : TreeMapConnection.t :=
  {| TreeMapConnection.base := conn;
     TreeMapConnection.version := "2014";
     TreeMapConnection._tl_key := "tl_id";
     TreeMapConnection.raster_path := "treemap.tif";
     TreeMapConnection.table_path := "trees.csv";
     TreeMapConnection._tree_table :=
       [ row 0 5 10 20 nan 50 100; row 1 7 8 15 12 40 6 ]%float
       ++ [ row 0 9 12 15 nan 35 6; row 1 9 9 30 28 45 6 ]%float |}.

Definition tree (i key : Z) (dia ht cr tpa : float) : Trees.row :=
  {| Trees.TREE_ID := i; Trees.PLOT_ID := key; Trees.SPCD := 202;
     Trees.STATUSCD := 1; Trees.DIA := dia; Trees.HT := ht;
     Trees.CR := cr; Trees.TPA_UNADJ := tpa |}.

Definition imperial_row : Trees.row :=
  {| Trees.TREE_ID := 0; Trees.PLOT_ID := 5; Trees.SPCD := 202;
     Trees.STATUSCD := 1; Trees.DIA := 10; Trees.HT := 20;
     Trees.CR := 50; Trees.TPA_UNADJ := 100 |}%float.

Definition plot (id : Z) : Plots.row :=
  {| Plots.PLOT_ID := id; Plots.geometry := (0, 0) |}.

Definition east_roi : gdf :=
  {| g_crs := 0;
     g_bounds := {| minx := 100; miny := 100; maxx := 400; maxy := 400 |} |}.

(** An ROI whose box leaves the raster on the east side. *)
Definition far_roi : gdf :=
  {| g_crs := 0;
     g_bounds := {| minx := 2900; miny := 100; maxx := 3100; maxy := 400 |} |}.

Definition shifted_roi : gdf :=
  {| g_crs := 1000;
     g_bounds :=
       {| minx := 1100; miny := 1100; maxx := 1400; maxy := 1400 |} |}.

(** The window for the ROI given in CRS 1000. *)
Definition shifted_window : da :=
  {| d_crs := 1000;
     d_bounds := {| minx := 1090; miny := 1090;
                    maxx := 1410; maxy := 1410 |};
     d_res := (30, - (30))%Q |}.

(** What the code returns for that ROI, for two pairs of paddings. *)
Definition shifted_clip : da :=
  Eval vm_compute in
    fallback
      (value
         (RasterConnection._extract_window_rioxarray conn shifted_roi 10 2)).

Definition shifted_clip_wider : da :=
  Eval vm_compute in
    fallback
      (value
         (RasterConnection._extract_window_rioxarray conn shifted_roi 20 3)).
End Flat.

(** ** The plot index of [treemap.py]

    [get_plots_dataframe_from_raster] reads three things off the raster:
    the coordinate arrays [coords["x"].values] and [coords["y"].values]
    and the raveled pixel values [values.ravel()]. *)

Class GridBackend {B : Backend} : Type := {
  da_coords_x : DataArray -> list Q;
  da_coords_y : DataArray -> list Q;
  da_values_ravel : DataArray -> list Z
}.

(** [np.meshgrid(x, y)]: two grids of [len(y)] rows and [len(x)] columns,
    the first repeating [x] on every row, the second constant along each
    row. *)
Definition meshgrid (x y : list Q) : list (list Q) * list (list Q) :=
  (map (fun _ => x) y, map (fun yi => map (fun _ => yi) x) y).

(** [ndarray.ravel()] of a grid, row after row *)
Definition ravel {A} (grid : list (list A)) : list A := List.concat grid.

Module PlotIndex.
Section WithBackend.
Context {B : Backend} {G : GridBackend}.

(** The frame of plots: its rows and its [crs]. *)
Record plots_gdf : Type := {
  rows : list Plots.row;
  crs : CRS
}.

(** [GeoDataFrame({"PLOT_ID": ids}, geometry=points, crs=crs)]: pandas
    refuses a geometry column whose length is not that of the frame. *)
Definition GeoDataFrame_of (ids : list Z) (points : list (Q * Q))
    (crs0 : CRS) : result plots_gdf :=
  if Nat.eqb (List.length points) (List.length ids) then
    Ok {| rows := map (fun '(id, point) =>
                         {| Plots.PLOT_ID := id; Plots.geometry := point |})
                    (combine ids points);
          crs := crs0 |}
  else
    Raise (Exn ValueError
             "Length of values does not match length of index").

Definition get_plots_dataframe_from_raster (raster : DataArray)
  : result plots_gdf :=
  let x_coords := da_coords_x raster in
  let y_coords := da_coords_y raster in
  let (xx, yy) := meshgrid x_coords y_coords in
  GeoDataFrame_of (da_values_ravel raster)
    (map (fun '(x, y) => (x, y)) (combine (ravel xx) (ravel yy)))
    (rio_crs raster).

End WithBackend.
End PlotIndex.

(** ** Samples on the small backend *)

Module FlatSamples.
Import Flat.

Definition returned_sample (r : result TreeSample) : TreeSample :=
  match r with
  | Ok sample => sample
  | Raise _ => {| data := {| frame_index := []; frame_rows := [] |} |}
  end.

(** What the query returns for plot 5, for plot 7 and for both. *)
Definition sample_5 : TreeSample :=
  Eval vm_compute in
    returned_sample (TreeMapConnection.query_trees_by_plots tm_conn [plot 5]).

Definition sample_7 : TreeSample :=
  Eval vm_compute in
    returned_sample (TreeMapConnection.query_trees_by_plots tm_conn [plot 7]).

Definition sample_5_7 : TreeSample :=
  Eval vm_compute in
    returned_sample
      (TreeMapConnection.query_trees_by_plots tm_conn [plot 5; plot 7]).

Definition sample_none : TreeSample :=
  Eval vm_compute in
    returned_sample (TreeMapConnection.query_trees_by_plots tm_conn []).

Definition sample_9_apart : TreeSample :=
  Eval vm_compute in
    returned_sample
      (TreeMapConnection.query_trees_by_plots tm_conn_plot_9_apart [plot 9]).

Definition imperial_frame : DataFrame Trees.row :=
  {| frame_index := [0%Z]; frame_rows := [imperial_row] |}.

Definition metric_sample : TreeSample :=
  Eval vm_compute in
    returned_sample (convert_treemap_data_to_fastfuels imperial_frame).

Definition metric_row : Metric.row :=
  Eval vm_compute in
    hd {| Metric.TREE_ID := 0; Metric.PLOT_ID := 0; Metric.SPCD := 0;
          Metric.STATUSCD := 0; Metric.DIA := 0; Metric.HT := 0;
          Metric.CR := 0; Metric.TPA := 0 |}%float
      (frame_rows (data metric_sample)).
End FlatSamples.

(** ** More vocabulary *)

Section CallOutcomes.
Context {B : Backend}.

(** The backend call [c] raised [e]. *)
Definition raised_by (c : call) (e : exn) : Prop :=
  match c with
  | CallToCrs roi target => gdf_to_crs roi target = Raise e
  | CallClipBox src box => rio_clip_box src box = Raise e
  | CallReproject src target => rio_reproject src target = Raise e
  end.

(** The backend call [c] returned. *)
Definition returned (c : call) : Prop :=
  match c with
  | CallToCrs roi target => exists r, gdf_to_crs roi target = Ok r
  | CallClipBox src box => exists w, rio_clip_box src box = Ok w
  | CallReproject src target => exists w, rio_reproject src target = Ok w
  end.
End CallOutcomes.

(** The columns of a table row that [query_trees_by_plots] hands through
    unchanged, and the metric values of the others. *)
Definition metric_of (key : Z) (r : Table.row) : Metric.row :=
  {| Metric.TREE_ID := Table.index r;
     Metric.PLOT_ID := key;
     Metric.SPCD := Table.SPCD r;
     Metric.STATUSCD := Table.STATUSCD r;
     Metric.DIA := (Table.DIA r * 2.54)%float;
     Metric.HT := ((if notnull (Table.ACTUALHT r) then Table.ACTUALHT r
                    else Table.HT r) * 0.3048)%float;
     Metric.CR := (Table.CR r / 100)%float;
     Metric.TPA := (Table.TPA_UNADJ r * 2.47105 / 10000)%float |}.

(** ** More of the small backend *)

Module FlatGrid.
Import Flat.

(** Centres of [n] cells of width [step] starting at the edge [lo]. *)
Definition centres (lo step : Q) (n : nat) : list Q :=
  map (fun k => lo + (inject_Z (Z.of_nat k) + (1 # 2)) * step) (seq 0 n).

Definition cells (lo hi step : Q) : nat :=
  let q := ((hi - lo) / Qabs step)%Q in
  Z.to_nat (Qnum q / Z.pos (Qden q)).

Definition xs (w : da) : list Q :=
  centres (minx (d_bounds w)) (fst (d_res w))
    (cells (minx (d_bounds w)) (maxx (d_bounds w)) (fst (d_res w))).

Definition ys (w : da) : list Q :=
  centres (maxy (d_bounds w)) (snd (d_res w))
    (cells (miny (d_bounds w)) (maxy (d_bounds w)) (snd (d_res w))).

(** Plot 5 and plot 9 alternate over the cells. *)
Definition pixels (w : da) : list Z :=
  map (fun k => if Nat.even k then 5%Z else 9%Z)
    (seq 0 (List.length (xs w) * List.length (ys w))).

#[export] Instance grid : GridBackend := {
  da_coords_x := xs;
  da_coords_y := ys;
  da_values_ravel := pixels
}.

(** Three columns and two rows of 30 by 30 cells. *)
Definition small_window : da :=
  {| d_crs := 0;
     d_bounds := {| minx := 0; miny := 0; maxx := 90; maxy := 60 |};
     d_res := (30, - (30))%Q |}.

(** Its plots: pixel centres from the north-west corner, row by row. *)
Definition small_plots : list Plots.row :=
  [ {| Plots.PLOT_ID := 5; Plots.geometry := (30 # 2, 90 # 2) |};
    {| Plots.PLOT_ID := 9; Plots.geometry := (90 # 2, 90 # 2) |};
    {| Plots.PLOT_ID := 5; Plots.geometry := (150 # 2, 90 # 2) |};
    {| Plots.PLOT_ID := 9; Plots.geometry := (30 # 2, 30 # 2) |};
    {| Plots.PLOT_ID := 5; Plots.geometry := (90 # 2, 30 # 2) |};
    {| Plots.PLOT_ID := 9; Plots.geometry := (150 # 2, 30 # 2) |} ]%Q.

Definition small_gdf : @PlotIndex.plots_gdf backend :=
  {| PlotIndex.rows := small_plots; PlotIndex.crs := 0%Z : @CRS backend |}.

(** An ROI that the raster does not reach. *)
Definition outside_roi : gdf :=
  {| g_crs := 0;
     g_bounds :=
       {| minx := 5000; miny := 5000; maxx := 5100; maxy := 5100 |} |}.

(** An ROI inside [east_roi]. *)
Definition inner_roi : gdf :=
  {| g_crs := 0;
     g_bounds := {| minx := 200; miny := 200; maxx := 300; maxy := 300 |} |}.

(** A table store that refuses to be read. *)
Definition denied (path : string) : result (list Table.row) :=
  Raise (Exn (ForeignError "PermissionError")
           ("[Errno 13] Permission denied: " ++ path)).

Definition tabular_denied : TabularBackend := {|
  dd_read_csv := denied;
  dd_read_parquet := denied
|}.

(** The connection [TreeMapConnection("treemap.tif", "trees.parquet",
    "2016")] builds. *)
Definition tm_conn_2016 : TreeMapConnection.t :=
  {| TreeMapConnection.base := conn;
     TreeMapConnection.version := "2016";
     TreeMapConnection._tl_key := "tm_id";
     TreeMapConnection.raster_path := "treemap.tif";
     TreeMapConnection.table_path := "trees.parquet";
     TreeMapConnection._tree_table := tree_table |}.

(** The same backend with geopandas' refusal to reproject a frame that has
    no CRS; a negative code stands for "no CRS". *)
Definition strict_to_crs (g : gdf) (target : Z) : result gdf :=
  if (g_crs g <? 0)%Z then
    Raise (Exn ValueError
             "Cannot transform naive geometries.  Please set a crs on the object first.")
  else gdf_to_crs g target.

Definition strict : Backend := {|
  CRS := Z;
  CRS_eqb := Z.eqb;
  CRS_eqb_eq := Z.eqb_eq;
  GeoDataFrame := gdf;
  gdf_crs := g_crs;
  gdf_to_crs := strict_to_crs;
  gdf_total_bounds := g_bounds;
  DataArray := da;
  Dtype := unit;
  open_rasterio := open;
  rio_crs := d_crs;
  rio_resolution := d_res;
  rio_bounds := d_bounds;
  da_dtype := fun _ => tt;
  rio_clip_box := clip;
  rio_reproject := @rio_reproject backend
|}.

Definition strict_attrs : @RasterConnection.attrs strict :=
  {| RasterConnection.raster := raster0 : @DataArray strict;
     RasterConnection.raster_crs := 0%Z : @CRS strict;
     RasterConnection.raster_resolution := 30;
     RasterConnection.raster_bounds := d_bounds raster0;
     RasterConnection.raster_dtype := tt : @Dtype strict |}.

Definition strict_conn : @RasterConnection.t strict :=
  {| RasterConnection.connection_type := "rioxarray";
     RasterConnection.opened := Some strict_attrs |}.

(** An ROI with no CRS. *)
Definition naive_roi : gdf :=
  {| g_crs := -1;
     g_bounds := {| minx := 100; miny := 100; maxx := 400; maxy := 400 |} |}.
End FlatGrid.

(** ** A backend of whole cells

    A raster is a grid of square cells.  Clipping keeps the cells whose
    centres lie in the box.  CRS 1 is CRS 0 with the y axis stretched by
    3/2; reprojection resamples a window onto a fresh grid of square cells
    of the same width, anchored at the window's own north-west corner. *)
Module Cells.
Record grid : Type := {
  c_crs : Z;
  c_west : Q;
  c_north : Q;
  c_size : Q;
  c_cols : Z;
  c_rows : Z
}.

Definition qfloor (q : Q) : Z := (Qnum q / Z.pos (Qden q))%Z.
Definition qceil (q : Q) : Z := (- qfloor (- q))%Z.

Definition stretch (crs : Z) : Q := if (crs =? 0)%Z then 1 else 3 # 2.

Definition bounds (g : grid) : BBox :=
  {| minx := c_west g;
     miny := c_north g - inject_Z (c_rows g) * c_size g;
     maxx := c_west g + inject_Z (c_cols g) * c_size g;
     maxy := c_north g |}.

Definition clip (g : grid) (box : BBox) : result grid :=
  let first_col :=
    Z.max 0 (qceil ((minx box - c_west g) / c_size g - (1 # 2))) in
  let last_col :=
    Z.min (c_cols g - 1)
      (qfloor ((maxx box - c_west g) / c_size g - (1 # 2))) in
  let first_row :=
    Z.max 0 (qceil ((c_north g - maxy box) / c_size g - (1 # 2))) in
  let last_row :=
    Z.min (c_rows g - 1)
      (qfloor ((c_north g - miny box) / c_size g - (1 # 2))) in
  if ((first_col <=? last_col) && (first_row <=? last_row))%Z then
    Ok {| c_crs := c_crs g;
          c_west := c_west g + inject_Z first_col * c_size g;
          c_north := c_north g - inject_Z first_row * c_size g;
          c_size := c_size g;
          c_cols := last_col - first_col + 1;
          c_rows := last_row - first_row + 1 |}
  else Raise (Exn (ForeignError "NoDataInBounds") "No data found in bounds.").

Definition regrid (g : grid) (target : Z) : result grid :=
  let factor := (stretch target / stretch (c_crs g))%Q in
  Ok {| c_crs := target;
        c_west := c_west g;
        c_north := c_north g * factor;
        c_size := c_size g;
        c_cols := c_cols g;
        c_rows := qceil (inject_Z (c_rows g) * factor) |}.

Definition move (g : Flat.gdf) (target : Z) : result Flat.gdf :=
  let factor := (stretch target / stretch (Flat.g_crs g))%Q in
  let b := Flat.g_bounds g in
  Ok {| Flat.g_crs := target;
        Flat.g_bounds := {| minx := minx b; miny := miny b * factor;
                            maxx := maxx b; maxy := maxy b * factor |} |}.

(** A hundred by a hundred cells of 30 by 30. *)
Definition raster0 : grid :=
  {| c_crs := 0; c_west := 0; c_north := 3000; c_size := 30;
     c_cols := 100; c_rows := 100 |}.

Definition open (path : string) : result grid :=
  if String.eqb path "grid.tif" then Ok raster0
  else Raise (Exn (ForeignError "RasterioIOError")
                (path ++ ": No such file or directory")).

Definition backend : Backend := {|
  CRS := Z;
  CRS_eqb := Z.eqb;
  CRS_eqb_eq := Z.eqb_eq;
  GeoDataFrame := Flat.gdf;
  gdf_crs := Flat.g_crs;
  gdf_to_crs := move;
  gdf_total_bounds := Flat.g_bounds;
  DataArray := grid;
  Dtype := unit;
  open_rasterio := open;
  rio_crs := c_crs;
  rio_resolution := fun g => (c_size g, - c_size g)%Q;
  rio_bounds := bounds;
  da_dtype := fun _ => tt;
  rio_clip_box := clip;
  rio_reproject := regrid
|}.

Definition conn_attrs : @RasterConnection.attrs backend :=
  {| RasterConnection.raster := raster0 : @DataArray backend;
     RasterConnection.raster_crs := 0%Z : @CRS backend;
     RasterConnection.raster_resolution := 30;
     RasterConnection.raster_bounds := bounds raster0;
     RasterConnection.raster_dtype := tt : @Dtype backend |}.

(** The connection [RasterConnection("grid.tif")] builds. *)
Definition conn : @RasterConnection.t backend :=
  {| RasterConnection.connection_type := "rioxarray";
     RasterConnection.opened := Some conn_attrs |}.

(** An ROI given in CRS 1. *)
Definition roi : Flat.gdf :=
  {| Flat.g_crs := 1;
     Flat.g_bounds :=
       {| minx := 1100; miny := 1500; maxx := 1400; maxy := 1800 |} |}.

Definition fallback (r : result (option grid)) : grid :=
  match r with Ok (Some w) => w | _ => raster0 end.


End Cells.

Section PaddingVocabulary.
Context {B : Backend}.



End PaddingVocabulary.

(** * Properties *)

(** ** Construction of a raster connection *)

Section RasterConstruction.
Context {B : Backend}.
Import RasterConnection.

Lemma allowed_is_rioxarray (ct : string) :
  existsb (String.eqb ct) allowed_connection_types = true ->
  ct = "rioxarray"%string.
Proof.
  unfold allowed_connection_types. simpl.
  rewrite orb_false_r. apply String.eqb_eq.
Qed.

(** What a successful [__init__] leaves behind. *)
Lemma init_inv (path ct : string) (self : t) :
  __init__ path ct = Ok self ->
  connection_type self = "rioxarray"%string
  /\ exists r,
      open_rasterio path = Ok r
      /\ opened self =
           Some {| raster := r;
                   raster_crs := rio_crs r;
                   raster_resolution := Qabs (fst (rio_resolution r));
                   raster_bounds := rio_bounds r;
                   raster_dtype := da_dtype r |}.
Proof.
  unfold __init__.
  destruct (existsb (String.eqb ct) allowed_connection_types) eqn:Hin;
    simpl; [| discriminate].
  apply allowed_is_rioxarray in Hin. subst ct. simpl.
  destruct (open_rasterio path) as [r | e] eqn:Hopen; [| discriminate].
  intros H. injection H as <-. simpl. split; [reflexivity |].
  exists r. split; reflexivity.
Qed.

Lemma init_resolution_nonneg (path ct : string) (self : t) (a : attrs) :
  __init__ path ct = Ok self -> opened self = Some a ->
  (0 <= raster_resolution a)%Q.
Proof.
  intros Hinit Ha. apply init_inv in Hinit as [_ (r & _ & Hop)].
  rewrite Hop in Ha. injection Ha as <-. simpl. apply Qabs_nonneg.
Qed.
End RasterConstruction.

(** ** Running a logged computation *)

Section Running.
Context {B : Backend}.

Lemma value_bind {A C} (m : M A) (k : A -> M C) :
  value (x <- m ;; k x) =
  match value m with Ok a => value (k a) | Raise e => Raise e end.
Proof.
  destruct m as [log [a | e]]; simpl; [| reflexivity].
  destruct (k a); reflexivity.
Qed.

Lemma calls_bind {A C} (m : M A) (k : A -> M C) :
  calls (x <- m ;; k x) =
  calls m ++ match value m with Ok a => calls (k a) | Raise _ => [] end.
Proof.
  destruct m as [log [a | e]]; simpl.
  - destruct (k a); reflexivity.
  - symmetry. apply app_nil_r.
Qed.

Lemma getattrs_opened (self : RasterConnection.t) a :
  RasterConnection.opened self = Some a ->
  RasterConnection.getattrs self = Ok a.
Proof. unfold RasterConnection.getattrs. now intros ->. Qed.
End Running.

(** ** Bounding-box geometry *)

Lemma within_corners (b outer : BBox) :
  box_wf b -> box_within b outer ->
  forall p, In p (corners b) -> point_in p outer.
Proof.
  unfold box_wf, box_within, corners, point_in.
  intros [Hx Hy] (H0 & H1 & H2 & H3) p Hp. simpl in Hp.
  destruct Hp as [<- | [<- | [<- | [<- | []]]]]; simpl; repeat split; lra.
Qed.

Lemma not_within_corner (b outer : BBox) :
  ~ box_within b outer ->
  exists p, In p (corners b) /\ ~ point_in p outer.
Proof.
  unfold box_within, corners, point_in. intros Hn.
  destruct (Qlt_le_dec (minx b) (minx outer)) as [H0 | H0].
  { exists (minx b, miny b). split; [simpl; auto |]. simpl. lra. }
  destruct (Qlt_le_dec (miny b) (miny outer)) as [H1 | H1].
  { exists (minx b, miny b). split; [simpl; auto |]. simpl. lra. }
  destruct (Qlt_le_dec (maxx outer) (maxx b)) as [H2 | H2].
  { exists (maxx b, maxy b). split; [simpl; auto 6 |]. simpl. lra. }
  destruct (Qlt_le_dec (maxy outer) (maxy b)) as [H3 | H3].
  { exists (maxx b, maxy b). split; [simpl; auto 6 |]. simpl. lra. }
  exfalso. apply Hn. repeat split; assumption.
Qed.

Lemma box_within_refl (b : BBox) : box_within b b.
Proof. unfold box_within. repeat split; lra. Qed.

Lemma pad_mono (b : BBox) (d d' : Q) :
  (d <= d')%Q -> box_within (pad b d) (pad b d').
Proof. unfold box_within, pad. simpl. intros H. repeat split; lra. Qed.

(** ** [roi_within_raster_bounds] and the dispatch of [extract_window] *)

Section Contains.
Context {B : Backend}.
Import RasterConnection.

(** C2.  [roi_within_raster_bounds] makes one call, the reprojection of
    the ROI into the raster's CRS, and answers from the bounding box of
    the reprojected ROI: the answer is true exactly when that box lies
    within the raster's bounds on all four sides, bounds included.  For a
    box with min <= max on both axes, the answer is false exactly when
    some corner of the box is outside the raster's bounds. *)
Theorem roi_within_raster_bounds_spec
    (self : t) (a : attrs) (roi : GeoDataFrame) :
  opened self = Some a ->
  calls (roi_within_raster_bounds self roi)
  = [CallToCrs roi (raster_crs a)]
  /\ forall r,
      gdf_to_crs roi (raster_crs a) = Ok r ->
      exists b,
        value (roi_within_raster_bounds self roi) = Ok b
        /\ (b = true <->
            box_within (gdf_total_bounds r) (raster_bounds a))
        /\ (box_wf (gdf_total_bounds r) ->
            (b = false <->
             exists p, In p (corners (gdf_total_bounds r))
                       /\ ~ point_in p (raster_bounds a))).
Proof.
  intros Hop. unfold roi_within_raster_bounds.
  rewrite (getattrs_opened _ Hop). split.
  - rewrite calls_bind. unfold lift at 1 2. cbn [calls value fst snd app].
    rewrite calls_bind. unfold to_crs. cbn [calls value fst snd].
    destruct (gdf_to_crs roi (raster_crs a)); reflexivity.
  - intros r Hr. rewrite value_bind. unfold lift. cbn [value snd].
    rewrite value_bind. unfold to_crs. cbn [value snd].
    rewrite Hr. eexists. split; [reflexivity |].
    assert (Hiff :
      Qle_bool (minx (raster_bounds a)) (minx (gdf_total_bounds r))
      && Qle_bool (miny (raster_bounds a)) (miny (gdf_total_bounds r))
      && Qle_bool (maxx (gdf_total_bounds r)) (maxx (raster_bounds a))
      && Qle_bool (maxy (gdf_total_bounds r)) (maxy (raster_bounds a))
      = true
      <-> box_within (gdf_total_bounds r) (raster_bounds a)).
    { unfold box_within. rewrite !andb_true_iff, !Qle_bool_iff. tauto. }
    split; [exact Hiff |].
    intros Hwf. rewrite <- not_true_iff_false, Hiff. split.
    + apply not_within_corner.
    + intros (p & Hp & Hout) Hin.
      exact (Hout (within_corners Hwf Hin Hp)).
Qed.

(** C10.  A connection that [__init__] returned has a connection type of
    the allowed list, namely "rioxarray"; [extract_window] on it runs
    [_extract_window_rioxarray] and hands back its window, and never
    returns [None]. *)
Theorem constructed_connection_dispatches
    (path ct : string) (self : t) (roi : GeoDataFrame) (pp : Q) (ipc : Z) :
  __init__ path ct = Ok self ->
  In (connection_type self) allowed_connection_types
  /\ connection_type self = "rioxarray"%string
  /\ extract_window self roi pp ipc
     = (w <- _extract_window_rioxarray self roi pp ipc ;; ret (Some w))
  /\ value (extract_window self roi pp ipc) <> Ok None.
Proof.
  intros Hinit. destruct (init_inv _ _ Hinit) as [Hct _].
  assert (Hrun : extract_window self roi pp ipc
                 = (w <- _extract_window_rioxarray self roi pp ipc ;;
                    ret (Some w))).
  { unfold extract_window. rewrite Hct. reflexivity. }
  repeat split.
  - rewrite Hct. simpl. auto.
  - exact Hct.
  - exact Hrun.
  - rewrite Hrun, value_bind.
    destruct (value (_extract_window_rioxarray self roi pp ipc));
      simpl; discriminate.
Qed.
End Contains.

(** ** [_extract_window_rioxarray] and [extract_window] *)

Section Extraction.
Context {B : Backend}.
Import RasterConnection.

Ltac step_log :=
  cbn [bind ret M_monad M_bind result_monad lift to_crs clip_box reproject
       value calls fst snd app negb].

Ltac run_log :=
  step_log;
  repeat match goal with
    | |- context [match ?x with Ok _ => _ | Raise _ => _ end] =>
        destruct x eqn:?; step_log
    end.

(** The value of a run, with the call log erased. *)
Lemma value_extract (self : t) (a : attrs) (roi : GeoDataFrame)
    (pp : Q) (ipc : Z) :
  opened self = Some a ->
  value (_extract_window_rioxarray self roi pp ipc)
  = (roi_bounds <-
       (if negb (CRS_eqb (gdf_crs roi) (raster_crs a)) then
          r <- gdf_to_crs roi (raster_crs a) ;; ret (gdf_total_bounds r)
        else ret (gdf_total_bounds roi)) ;;
     window <- rio_clip_box (raster a) (pad roi_bounds pp) ;;
     window_reprojected <-
       (if negb (CRS_eqb (gdf_crs roi) (raster_crs a)) then
          rio_reproject window (gdf_crs roi)
        else ret window) ;;
     rio_clip_box window_reprojected
       (pad (gdf_total_bounds roi) (inject_Z ipc * raster_resolution a))).
Proof.
  intros Hop. unfold _extract_window_rioxarray, pad.
  rewrite (getattrs_opened _ Hop). step_log.
  destruct (CRS_eqb (gdf_crs roi) (raster_crs a)); run_log;
    congruence.
Qed.

(** C8.  When the ROI's CRS is the raster's, the run of
    [_extract_window_rioxarray] is the simplified computation, call log
    included: the raster is clipped to the ROI's own box grown by the
    projection padding, that window is clipped to the ROI's box grown by
    the interpolation padding, and the log holds no reprojection call.
    [extract_window] on a "rioxarray" connection returns the window of
    that computation. *)
Theorem crs_match_shortcut (self : t) (a : attrs) (roi : GeoDataFrame)
    (pp : Q) (ipc : Z) :
  opened self = Some a ->
  gdf_crs roi = raster_crs a ->
  _extract_window_rioxarray self roi pp ipc
  = extract_window_same_crs a roi pp ipc
  /\ forallb (fun c => negb (is_reprojection c))
       (calls (_extract_window_rioxarray self roi pp ipc)) = true
  /\ (connection_type self = "rioxarray"%string ->
      extract_window self roi pp ipc
      = (w <- extract_window_same_crs a roi pp ipc ;; ret (Some w))).
Proof.
  intros Hop Hcrs.
  assert (Heq : _extract_window_rioxarray self roi pp ipc
                = extract_window_same_crs a roi pp ipc).
  { unfold _extract_window_rioxarray, extract_window_same_crs, pad.
    rewrite (getattrs_opened _ Hop).
    apply CRS_eqb_eq in Hcrs. step_log. rewrite Hcrs.
    run_log; reflexivity. }
  split; [exact Heq |]. split.
  - rewrite Heq. unfold extract_window_same_crs. run_log; reflexivity.
  - intros Hct. unfold extract_window. rewrite Hct, Heq. reflexivity.
Qed.

(** C3.  In a run of [_extract_window_rioxarray] that returns, the last
    call is the clip of the window (reprojected into the ROI's CRS when
    the CRSs differ, the first clip of the raster itself otherwise) to
    the box made of the bounds of the ROI as given, in its own CRS, moved
    outwards on each of the four sides by [interpolation_padding_cells]
    times the raster's resolution; what that clip returns is the
    result. *)
Theorem final_clip_box_from_native_bounds
    (self : t) (a : attrs) (roi : GeoDataFrame) (pp : Q) (ipc : Z)
    (w : DataArray) :
  opened self = Some a ->
  value (_extract_window_rioxarray self roi pp ipc) = Ok w ->
  let d := (inject_Z ipc * raster_resolution a)%Q in
  let roi_padded :=
    {| minx := minx (gdf_total_bounds roi) - d;
       miny := miny (gdf_total_bounds roi) - d;
       maxx := maxx (gdf_total_bounds roi) + d;
       maxy := maxy (gdf_total_bounds roi) + d |} in
  exists pre box1 window window_reprojected,
    calls (_extract_window_rioxarray self roi pp ipc)
    = pre ++ [CallClipBox window_reprojected roi_padded]
    /\ rio_clip_box (raster a) box1 = Ok window
    /\ (if CRS_eqb (gdf_crs roi) (raster_crs a)
        then window_reprojected = window
        else rio_reproject window (gdf_crs roi) = Ok window_reprojected)
    /\ rio_clip_box window_reprojected roi_padded = Ok w.
Proof.
  intros Hop. unfold _extract_window_rioxarray.
  rewrite (getattrs_opened _ Hop). step_log.
  destruct (CRS_eqb (gdf_crs roi) (raster_crs a)); run_log;
    try discriminate; intros Hw; injection Hw as <-.
  - eexists [_], _, _, _. repeat split; eassumption.
  - eexists [_; _; _], _, _, _. repeat split; eassumption.
Qed.
End Extraction.

Section PaddingMonotone.
Context {B : Backend}.
Import RasterConnection.
Variable sub : DataArray -> DataArray -> Prop.

Lemma cells_to_distance_mono (ipc ipc' : Z) (res : Q) :
  (0 <= res)%Q -> (ipc <= ipc')%Z ->
  (inject_Z ipc * res <= inject_Z ipc' * res)%Q.
Proof.
  intros Hres Hle. apply Qmult_le_compat_r; [| exact Hres].
  rewrite <- Zle_Qle. exact Hle.
Qed.

(** Where the raster library is monotone.  On a connection that
    [__init__] returned, over a raster library whose clip and reprojection
    respect a coverage ordering: if
    [extract_window] returns a window for paddings [pp] and [ipc], then
    for any projection padding [pp' >= pp] and any interpolation padding
    [ipc' >= ipc] it returns a window too, and the bounds of the first
    window lie within the bounds of the second on all four sides. *)
Theorem extract_window_padding_monotone
    (path ct : string) (self : t) (roi : GeoDataFrame)
    (pp pp' : Q) (ipc ipc' : Z) (w : DataArray) :
  coverage_order sub ->
  __init__ path ct = Ok self ->
  (pp <= pp')%Q -> (ipc <= ipc')%Z ->
  value (extract_window self roi pp ipc) = Ok (Some w) ->
  exists w',
    value (extract_window self roi pp' ipc') = Ok (Some w')
    /\ box_within (rio_bounds w) (rio_bounds w').
Proof.
  intros Hsub Hinit Hpp Hipc.
  destruct (init_inv _ _ Hinit) as [Hct (r0 & _ & Hop)].
  pose proof (init_resolution_nonneg _ _ Hinit Hop) as Hres.
  set (a := {| raster := r0; raster_crs := rio_crs r0;
               raster_resolution := Qabs (fst (rio_resolution r0));
               raster_bounds := rio_bounds r0;
               raster_dtype := da_dtype r0 |}) in *.
  unfold extract_window. rewrite Hct.
  change (String.eqb "rioxarray" "rioxarray") with true. cbv iota.
  rewrite !value_bind, !(value_extract self _ _ _ Hop).
  assert (Hbox2 :
    box_within
      (pad (gdf_total_bounds roi) (inject_Z ipc * raster_resolution a))
      (pad (gdf_total_bounds roi) (inject_Z ipc' * raster_resolution a))).
  { apply pad_mono, cells_to_distance_mono; assumption. }
  cbn [bind ret result_monad].
  destruct (negb (CRS_eqb (gdf_crs roi) (raster_crs a))).
  - destruct (gdf_to_crs roi (raster_crs a)) as [r | e];
      [| discriminate].
    destruct (rio_clip_box (raster a) (pad (gdf_total_bounds r) pp))
      as [win | e] eqn:Hwin; [| discriminate].
    destruct (clip_mono Hsub _ _ (sub_refl Hsub (raster a))
                (pad_mono (gdf_total_bounds r) Hpp) Hwin)
      as (win' & -> & Hsw).
    destruct (rio_reproject win (gdf_crs roi)) as [v | e] eqn:Hv;
      [| discriminate].
    destruct (reproject_mono Hsub _ _ _ Hsw Hv) as (v' & -> & Hsv).
    destruct (rio_clip_box v _) as [c | e] eqn:Hc; [| discriminate].
    destruct (clip_mono Hsub _ _ Hsv Hbox2 Hc) as (c' & -> & Hsc).
    cbn [value snd]. intros Hw. injection Hw as <-.
    exists c'. split; [reflexivity |]. exact (sub_bounds Hsub _ _ Hsc).
  - destruct (rio_clip_box (raster a) (pad (gdf_total_bounds roi) pp))
      as [win | e] eqn:Hwin; [| discriminate].
    destruct (clip_mono Hsub _ _ (sub_refl Hsub (raster a))
                (pad_mono (gdf_total_bounds roi) Hpp) Hwin)
      as (win' & -> & Hsw).
    destruct (rio_clip_box win _) as [c | e] eqn:Hc; [| discriminate].
    destruct (clip_mono Hsub _ _ Hsw Hbox2 Hc) as (c' & -> & Hsc).
    cbn [value snd]. intros Hw. injection Hw as <-.
    exists c'. split; [reflexivity |]. exact (sub_bounds Hsub _ _ Hsc).
Qed.
End PaddingMonotone.

(** ** The small backend obeys the coverage laws *)

Module FlatFacts.
Import Flat.

Lemma qmax_mono (a a' b b' : Q) :
  (a' <= a)%Q -> (b' <= b)%Q -> (qmax a' b' <= qmax a b)%Q.
Proof.
  unfold qmax. intros Ha Hb.
  destruct (Qle_bool a' b') eqn:E'; destruct (Qle_bool a b) eqn:E;
    try (apply Qle_bool_iff in E'); try (apply Qle_bool_iff in E);
    try (apply not_true_iff_false in E'; rewrite Qle_bool_iff in E');
    try (apply not_true_iff_false in E; rewrite Qle_bool_iff in E);
    lra.
Qed.

Lemma qmin_mono (a a' b b' : Q) :
  (a <= a')%Q -> (b <= b')%Q -> (qmin a b <= qmin a' b')%Q.
Proof.
  unfold qmin. intros Ha Hb.
  destruct (Qle_bool a' b') eqn:E'; destruct (Qle_bool a b) eqn:E;
    try (apply Qle_bool_iff in E'); try (apply Qle_bool_iff in E);
    try (apply not_true_iff_false in E'; rewrite Qle_bool_iff in E');
    try (apply not_true_iff_false in E; rewrite Qle_bool_iff in E);
    lra.
Qed.

Lemma inter_mono (a a' b b' : BBox) :
  box_within a a' -> box_within b b' ->
  box_within (inter a b) (inter a' b').
Proof.
  unfold box_within, inter. simpl.
  intros (A0 & A1 & A2 & A3) (B0 & B1 & B2 & B3).
  repeat split; auto using qmax_mono, qmin_mono.
Qed.

Lemma shift_mono (d : Z) (b b' : BBox) :
  box_within b b' -> box_within (shift d b) (shift d b').
Proof.
  unfold box_within, shift. simpl. intros (H0 & H1 & H2 & H3).
  repeat split; lra.
Qed.

Lemma sub_coverage_order : coverage_order sub.
Proof.
  constructor.
  - intros r. unfold sub.
    split; [reflexivity | split; [reflexivity | apply box_within_refl]].
  - intros w w' (_ & _ & H). exact H.
  - intros w w' b b' c (Hcrs & Hres & Hb) Hbb.
    cbn [rio_clip_box backend]. unfold clip. cbv zeta.
    pose proof (inter_mono Hb Hbb) as (I0 & I1 & I2 & I3).
    destruct (Qle_bool (minx (inter (d_bounds w) b)) _
              && Qle_bool (miny (inter (d_bounds w) b)) _) eqn:E;
      [| discriminate].
    apply andb_true_iff in E as [Ex Ey]. apply Qle_bool_iff in Ex, Ey.
    intros Hc. injection Hc as <-.
    assert (E' : Qle_bool (minx (inter (d_bounds w') b'))
                   (maxx (inter (d_bounds w') b'))
                 && Qle_bool (miny (inter (d_bounds w') b'))
                      (maxy (inter (d_bounds w') b')) = true).
    { apply andb_true_iff. split; apply Qle_bool_iff; lra. }
    rewrite E'. eexists. split; [reflexivity |].
    unfold sub. cbn [d_crs d_res d_bounds].
    split; [assumption | split; [assumption |]].
    unfold box_within. auto.
  - intros w w' target v (Hcrs & Hres & Hb). simpl.
    intros Hv. injection Hv as <-. eexists. split; [reflexivity |].
    unfold sub. simpl. rewrite Hcrs.
    split; [reflexivity | split; [assumption |]].
    apply (shift_mono (target - d_crs w') Hb).
Qed.
End FlatFacts.

(** ** The raster statements on the small backend *)

Module RasterExamples.
Import RasterConnection Flat.

Example conn_is_constructed :
  __init__ "treemap.tif" "rioxarray" = Ok conn.
Proof. reflexivity. Qed.

Lemma roi_within_raster_bounds_spec_witness :
  opened conn = Some conn_attrs
  /\ gdf_to_crs shifted_roi (raster_crs conn_attrs) = Ok east_roi
  /\ box_wf (gdf_total_bounds east_roi)
  /\ exists b,
       value (roi_within_raster_bounds conn shifted_roi) = Ok b
       /\ (b = true <->
           box_within (gdf_total_bounds east_roi) (raster_bounds conn_attrs))
       /\ (b = false <->
           exists p, In p (corners (gdf_total_bounds east_roi))
                     /\ ~ point_in p (raster_bounds conn_attrs)).
Proof.
  assert (Hwf : box_wf (gdf_total_bounds east_roi)).
  { unfold box_wf, Qle. simpl. lia. }
  split; [reflexivity |]. split; [reflexivity |]. split; [exact Hwf |].
  destruct (proj2 (roi_within_raster_bounds_spec conn shifted_roi eq_refl)
              east_roi eq_refl) as (b & Hb & Htrue & Hfalse).
  exists b. split; [exact Hb |]. split; [exact Htrue | exact (Hfalse Hwf)].
Defined.

Example shifted_roi_is_within :
  value (roi_within_raster_bounds conn shifted_roi) = Ok true.
Proof. reflexivity. Qed.

Example far_roi_is_not_within :
  value (roi_within_raster_bounds conn far_roi) = Ok false.
Proof. reflexivity. Qed.

Lemma constructed_connection_dispatches_witness :
  __init__ "treemap.tif" "rioxarray" = Ok conn
  /\ value (extract_window conn shifted_roi 10 2) <> Ok None.
Proof.
  split; [reflexivity |].
  apply (constructed_connection_dispatches (B := backend)
           "treemap.tif" "rioxarray" shifted_roi 10 2).
  reflexivity.
Defined.

Lemma crs_match_shortcut_witness :
  opened conn = Some conn_attrs
  /\ gdf_crs east_roi = raster_crs conn_attrs
  /\ _extract_window_rioxarray conn east_roi 10 2
     = extract_window_same_crs conn_attrs east_roi 10 2
  /\ forallb (fun c => negb (is_reprojection c))
       (calls (_extract_window_rioxarray conn east_roi 10 2)) = true.
Proof.
  split; [reflexivity |]. split; [reflexivity |].
  destruct (crs_match_shortcut conn east_roi 10 2 (a := conn_attrs)
              eq_refl eq_refl) as (Hrun & Hlog & _).
  split; [exact Hrun | exact Hlog].
Defined.

(** With an ROI in another CRS the log does hold reprojection calls. *)
Example other_crs_reprojects :
  map is_reprojection
    (calls (_extract_window_rioxarray conn shifted_roi 10 2))
  = [true; false; true; false].
Proof. reflexivity. Qed.

Example shifted_window_bounds :
  match value (_extract_window_rioxarray conn shifted_roi 10 2) with
  | Ok w => d_crs w = 1000%Z
            /\ box_within (d_bounds w) (d_bounds shifted_window)
            /\ box_within (d_bounds shifted_window) (d_bounds w)
  | Raise _ => False
  end.
Proof. vm_compute. intuition discriminate. Qed.

Lemma final_clip_box_from_native_bounds_witness :
  opened conn = Some conn_attrs
  /\ value (_extract_window_rioxarray conn shifted_roi 10 2)
     = Ok shifted_clip
  /\ exists pre box1 window window_reprojected,
       calls (_extract_window_rioxarray conn shifted_roi 10 2)
       = pre ++ [CallClipBox window_reprojected
                   {| minx := 1100 - inject_Z 2 * 30;
                      miny := 1100 - inject_Z 2 * 30;
                      maxx := 1400 + inject_Z 2 * 30;
                      maxy := 1400 + inject_Z 2 * 30 |}]
       /\ rio_clip_box (raster conn_attrs) box1 = Ok window
       /\ rio_reproject window (gdf_crs shifted_roi)
          = Ok window_reprojected
       /\ rio_clip_box window_reprojected
            {| minx := 1100 - inject_Z 2 * 30;
               miny := 1100 - inject_Z 2 * 30;
               maxx := 1400 + inject_Z 2 * 30;
               maxy := 1400 + inject_Z 2 * 30 |}
          = Ok shifted_clip.
Proof.
  split; [reflexivity |]. split; [reflexivity |].
  apply (final_clip_box_from_native_bounds conn shifted_roi 10 2
           (a := conn_attrs) (w := shifted_clip));
    reflexivity.
Defined.

(** The ROI is given in CRS 1000 with bounds 1100..1400; the reprojected
    window spans 1090..1410 there, and the final clip box is the ROI's own
    bounds grown by 2 cells of 30, that is 1040..1460. *)
Example final_clip_box_of_shifted_roi :
  exists win box,
    last (calls (_extract_window_rioxarray conn shifted_roi 10 2))
      (CallToCrs shifted_roi 0%Z)
    = CallClipBox win box
    /\ box_within (d_bounds win) (d_bounds shifted_window)
    /\ box_within (d_bounds shifted_window) (d_bounds win)
    /\ (minx box == 1040 /\ miny box == 1040
        /\ maxx box == 1460 /\ maxy box == 1460)%Q.
Proof.
  eexists. eexists. split; [vm_compute; reflexivity |].
  vm_compute. intuition discriminate.
Qed.

Lemma extract_window_padding_monotone_witness :
  __init__ "treemap.tif" "rioxarray" = Ok conn
  /\ (10 <= 20)%Q /\ (2 <= 3)%Z
  /\ value (extract_window conn shifted_roi 10 2) = Ok (Some shifted_clip)
  /\ exists w',
       value (extract_window conn shifted_roi 20 3) = Ok (Some w')
       /\ box_within (rio_bounds shifted_clip) (rio_bounds w').
Proof.
  assert (Hpp : (10 <= 20)%Q) by (unfold Qle; simpl; lia).
  assert (Hipc : (2 <= 3)%Z) by lia.
  split; [reflexivity |]. split; [exact Hpp |]. split; [exact Hipc |].
  split; [reflexivity |].
  apply (extract_window_padding_monotone (B := backend)
           "treemap.tif" "rioxarray" shifted_roi
           FlatFacts.sub_coverage_order eq_refl Hpp Hipc eq_refl).
Defined.

Example wider_padding_wider_window :
  value (extract_window conn shifted_roi 20 3)
  = Ok (Some shifted_clip_wider)
  /\ box_within (d_bounds shifted_clip) (d_bounds shifted_clip_wider)
  /\ ~ box_within (d_bounds shifted_clip_wider) (d_bounds shifted_clip).
Proof.
  split; [reflexivity |]. vm_compute. intuition discriminate.
Qed.
End RasterExamples.

(** ** Errors of construction *)

Section ConstructionErrors.
Context {B : Backend} {T : TabularBackend}.

Lemma existsb_eqb_In (x : string) (l : list string) :
  existsb (String.eqb x) l = true <-> In x l.
Proof.
  rewrite existsb_exists. split.
  - intros (y & Hy & Heq). apply String.eqb_eq in Heq. now subst.
  - intros Hx. exists x. split; [exact Hx | apply String.eqb_refl].
Qed.

Lemma existsb_eqb_not_In (x : string) (l : list string) :
  ~ In x l -> existsb (String.eqb x) l = false.
Proof.
  intros Hn. apply not_true_iff_false. now rewrite existsb_eqb_In.
Qed.

(** C1, as the code has it.  A connection type outside the allowed list
    and a version outside "2014", "2016" both raise [ValueError], each
    with its own message.  With a valid version and a raster that opens, a
    table path that ends in neither ".csv" nor ".parquet" raises
    [NotImplementedError], whether or not the file exists; a path with one
    of the two endings whose reader raises [FileNotFoundError] raises
    [FileNotFoundError] anew with the message "Invalid tree table path". *)
Theorem construction_errors
    (raster_path ct treemap_path table_path version : string) :
  (~ In ct RasterConnection.allowed_connection_types ->
   RasterConnection.__init__ raster_path ct
   = Raise (Exn ValueError ("Connection type " ++ ct ++ " not supported.")))
  /\ (~ In version ["2014"; "2016"]%string ->
      TreeMapConnection.__init__ treemap_path table_path version
      = Raise (Exn ValueError ("Invalid version: " ++ version)))
  /\ (In version ["2014"; "2016"]%string ->
      forall base,
        RasterConnection.__init__ treemap_path "rioxarray" = Ok base ->
        endswith table_path ".csv" = false ->
        endswith table_path ".parquet" = false ->
        TreeMapConnection.__init__ treemap_path table_path version
        = Raise (Exn NotImplementedError
                   ("Unsupported file format for tree table: "
                    ++ table_path)))
  /\ (In version ["2014"; "2016"]%string ->
      forall base e,
        RasterConnection.__init__ treemap_path "rioxarray" = Ok base ->
        exn_cls e = FileNotFoundError ->
        (endswith table_path ".csv" = true
         /\ dd_read_csv table_path = Raise e)
        \/ (endswith table_path ".csv" = false
            /\ endswith table_path ".parquet" = true
            /\ dd_read_parquet table_path = Raise e) ->
        TreeMapConnection.__init__ treemap_path table_path version
        = Raise (Exn FileNotFoundError
                   ("Invalid tree table path: " ++ table_path))).
Proof.
  repeat split.
  - intros Hct. unfold RasterConnection.__init__.
    now rewrite (existsb_eqb_not_In _ _ Hct).
  - intros Hv. unfold TreeMapConnection.__init__.
    now rewrite (existsb_eqb_not_In _ _ Hv).
  - intros Hv base Hbase Hcsv Hpq. unfold TreeMapConnection.__init__.
    apply existsb_eqb_In in Hv. rewrite Hv, Hbase, Hcsv, Hpq. reflexivity.
  - intros Hv base e Hbase Hcls Hread. unfold TreeMapConnection.__init__.
    apply existsb_eqb_In in Hv. rewrite Hv, Hbase.
    destruct Hread as [[Hcsv Hr] | (Hcsv & Hpq & Hr)].
    + rewrite Hcsv, Hr. simpl. unfold try_except_FileNotFoundError.
      now rewrite Hcls.
    + rewrite Hcsv, Hpq, Hr. simpl. unfold try_except_FileNotFoundError.
      now rewrite Hcls.
Qed.
End ConstructionErrors.

Module ConstructionExamples.
Import Flat.

Example tm_conn_is_constructed :
  TreeMapConnection.__init__ "treemap.tif" "trees.csv" "2014" = Ok tm_conn.
Proof. reflexivity. Qed.

(** An unsupported connection type and an invalid version raise the same
    class of exception, [ValueError]. *)
Lemma backend_and_version_share_ValueError :
  RasterConnection.__init__ "treemap.tif" "gdal"
  = Raise (Exn ValueError "Connection type gdal not supported.")
  /\ TreeMapConnection.__init__ "treemap.tif" "trees.csv" "2015"
     = Raise (Exn ValueError "Invalid version: 2015")
  /\ ~ kinds_differ
         (RasterConnection.__init__ "treemap.tif" "gdal")
         (TreeMapConnection.__init__ "treemap.tif" "trees.csv" "2015").
Proof.
  split; [reflexivity |]. split; [reflexivity |].
  simpl. intros H. apply H. reflexivity.
Qed.

(** A path that neither exists nor has a supported ending fails on the
    ending: no reader is called. *)
Example missing_txt_is_a_format_error :
  TreeMapConnection.__init__ "treemap.tif" "missing.txt" "2016"
  = Raise (Exn NotImplementedError
             "Unsupported file format for tree table: missing.txt").
Proof. reflexivity. Qed.

Lemma string_not_in (x : string) (l : list string) :
  existsb (String.eqb x) l = false -> ~ In x l.
Proof.
  intros H Hin. apply existsb_eqb_In in Hin. congruence.
Qed.

Lemma construction_errors_witness :
  RasterConnection.__init__ "treemap.tif" "gdal"
  = Raise (Exn ValueError "Connection type gdal not supported.")
  /\ TreeMapConnection.__init__ "treemap.tif" "trees.csv" "2015"
     = Raise (Exn ValueError "Invalid version: 2015")
  /\ TreeMapConnection.__init__ "treemap.tif" "trees.txt" "2016"
     = Raise (Exn NotImplementedError
                "Unsupported file format for tree table: trees.txt")
  /\ TreeMapConnection.__init__ "treemap.tif" "missing.parquet" "2016"
     = Raise (Exn FileNotFoundError
                "Invalid tree table path: missing.parquet").
Proof.
  assert (H2016 : In "2016"%string ["2014"; "2016"]%string)
    by (simpl; auto).
  split; [| split; [| split]].
  - apply (proj1 (construction_errors
                    "treemap.tif" "gdal" "treemap.tif" "trees.csv" "2015")).
    apply string_not_in. reflexivity.
  - apply (proj1 (proj2 (construction_errors
                    "treemap.tif" "gdal" "treemap.tif" "trees.csv" "2015"))).
    apply string_not_in. reflexivity.
  - apply (proj1 (proj2 (proj2 (construction_errors
                    "treemap.tif" "gdal" "treemap.tif" "trees.txt" "2016")))
             H2016 conn); reflexivity.
  - apply (proj2 (proj2 (proj2 (construction_errors
                    "treemap.tif" "gdal" "treemap.tif" "missing.parquet"
                    "2016")))
             H2016 conn
             (Exn FileNotFoundError
                "[Errno 2] No such file or directory: missing.parquet"));
      [reflexivity | reflexivity |].
    right. repeat split.
Defined.
End ConstructionExamples.

(** ** The semi-join *)

Lemma unique_from_In (x : Z) (l seen : list Z) :
  In x (unique_from seen l) <-> In x l /\ ~ In x seen.
Proof.
  revert seen. induction l as [| y l IH]; intros seen; simpl.
  - tauto.
  - destruct (existsb (Z.eqb y) seen) eqn:E.
    + rewrite IH. apply existsb_exists in E as (z & Hz & Heq).
      apply Z.eqb_eq in Heq. subst z. split.
      * intros [Hx Hn]. auto.
      * intros [[-> | Hx] Hn]; [contradiction | auto].
    + assert (Hy : ~ In y seen).
      { intros Hy. apply not_true_iff_false in E. apply E.
        apply existsb_exists. exists y. split; [exact Hy | apply Z.eqb_refl]. }
      simpl. rewrite IH. simpl. split.
      * intros [-> | [Hx Hn]]; [auto |]. split; [auto |]. intros Hs. auto.
      * intros [[-> | Hx] Hn]; [auto |].
        destruct (Z.eq_dec y x) as [-> | Hne]; [auto |].
        right. split; [exact Hx |]. intros [Heq | Hs]; auto.
Qed.

Lemma unique_In (x : Z) (l : list Z) : In x (unique l) <-> In x l.
Proof. unfold unique. rewrite unique_from_In. simpl. tauto. Qed.

Lemma isin_unique (l : list Z) (x : Z) :
  isin (unique l) x = if in_dec Z.eq_dec x l then true else false.
Proof.
  unfold isin. destruct (in_dec Z.eq_dec x l) as [Hin | Hn].
  - apply existsb_exists. exists x.
    split; [now apply unique_In | apply Z.eqb_refl].
  - apply not_true_iff_false. intros H.
    apply existsb_exists in H as (y & Hy & Heq).
    apply Z.eqb_eq in Heq. subst y. apply Hn. now apply unique_In.
Qed.

Lemma NoDup_map_filter {A C} (f : A -> C) (p : A -> bool) (l : list A) :
  NoDup (map f l) -> NoDup (map f (filter p l)).
Proof.
  induction l as [| a l IH]; simpl; intros Hnd; [constructor |].
  inversion Hnd as [| ? ? Hnotin Hrest]; subst.
  destruct (p a); simpl; [| auto].
  constructor; [| auto].
  intros Hin. apply Hnotin. apply in_map_iff in Hin as (b & Hb & Hin).
  apply filter_In in Hin as [Hin _]. apply in_map_iff. eauto.
Qed.

Section Query.
Context {B : Backend} {T : TabularBackend}.
Import TreeMapConnection.

(** The rows the filter of line 81 keeps are those of [surviving]. *)
Lemma filter_is_surviving (self : t) (plots : list Plots.row) :
  filter (fun r => isin (unique (map Plots.PLOT_ID plots)) (linkage self r))
    (_tree_table self)
  = surviving self plots.
Proof.
  unfold surviving. apply filter_ext. intros r. apply isin_unique.
Qed.

Lemma surviving_linked (self : t) (plots : list Plots.row) (r : Table.row) :
  In r (surviving self plots) ->
  In (linkage self r) (map Plots.PLOT_ID plots).
Proof.
  unfold surviving. rewrite filter_In. intros [_ H].
  destruct (in_dec Z.eq_dec _ _); [assumption | discriminate].
Qed.

(** The frame of line 101, row by row, from the surviving table rows. *)
Lemma trees_of_surviving (self : t) (plots : list Plots.row) :
  trees_of self plots
  = map (fun r =>
           {| Trees.TREE_ID := Table.index r;
              Trees.PLOT_ID := linkage self r;
              Trees.SPCD := Table.SPCD r;
              Trees.STATUSCD := Table.STATUSCD r;
              Trees.DIA := Table.DIA r;
              Trees.HT := if notnull (Table.ACTUALHT r)
                          then Table.ACTUALHT r else Table.HT r;
              Trees.CR := Table.CR r;
              Trees.TPA_UNADJ := Table.TPA_UNADJ r |})
      (surviving self plots).
Proof.
  unfold trees_of, materialize, resolve_height, filtered.
  rewrite filter_is_surviving, !map_map. reflexivity.
Qed.

Context {S : SampleBackend} {L : DaskLayout}.

(** A sample that the constructor returns holds the frame it was given. *)
Lemma sample_holds_frame (frame : DataFrame Metric.row)
    (sample : TreeSample) :
  TreeSample__init__ frame = Ok sample -> data sample = frame.
Proof.
  unfold TreeSample__init__. destruct (schema_refuses frame);
    [discriminate |].
  intros H. injection H as <-. reflexivity.
Qed.

Lemma query_returns (self : t) (plots : list Plots.row)
    (sample : TreeSample) :
  query_trees_by_plots self plots = Ok sample ->
  data sample = metric_data_of (trees self plots).
Proof.
  unfold query_trees_by_plots, convert_treemap_data_to_fastfuels.
  apply sample_holds_frame.
Qed.

Lemma query_rows (self : t) (plots : list Plots.row)
    (sample : TreeSample) :
  query_trees_by_plots self plots = Ok sample ->
  frame_rows (data sample)
  = map (fun r => metric_of (linkage self r) r) (surviving self plots).
Proof.
  intros H. rewrite (query_returns _ _ H). unfold metric_data_of, trees.
  simpl. rewrite trees_of_surviving, map_map. reflexivity.
Qed.

Lemma query_ids (self : t) (plots : list Plots.row)
    (sample : TreeSample) :
  query_trees_by_plots self plots = Ok sample ->
  map Metric.TREE_ID (frame_rows (data sample))
  = map Table.index (surviving self plots).
Proof.
  intros H. rewrite (query_rows _ _ H), map_map. reflexivity.
Qed.

(** Partitions whose restarted numbering does not hold 0 have no
    surviving row. *)
Lemma no_zero_no_rows (keep : Table.row -> bool)
    (partitions : list (list Table.row)) :
  ~ In 0%Z
      (List.concat
         (map (fun partition =>
                 map Z.of_nat
                   (seq 0 (List.length (filter keep partition))))
            partitions)) ->
  filter keep (List.concat partitions) = [].
Proof.
  induction partitions as [| p ps IH]; simpl; [reflexivity |].
  intros Hzero. rewrite filter_app.
  destruct (filter keep p) as [| r l] eqn:Hp.
  - simpl in *. apply IH. exact Hzero.
  - exfalso. apply Hzero. simpl. left. reflexivity.
Qed.

(** When the restarted numbering of the surviving rows has no label
    twice, the surviving rows are all of one partition, and their table
    labels are distinct when those of each partition are. *)
Lemma unique_index_unique_labels (keep : Table.row -> bool)
    (partitions : list (list Table.row)) :
  Forall (fun partition => NoDup (map Table.index partition)) partitions ->
  NoDup
    (List.concat
       (map (fun partition =>
               map Z.of_nat
                 (seq 0 (List.length (filter keep partition))))
          partitions)) ->
  NoDup (map Table.index (filter keep (List.concat partitions))).
Proof.
  induction 1 as [| p ps Hp _ IH]; simpl; [constructor |].
  intros Hnd. rewrite filter_app.
  destruct (filter keep p) as [| r l] eqn:Hkeep.
  - simpl in *. apply IH. exact Hnd.
  - rewrite (@no_zero_no_rows keep ps), app_nil_r.
    + rewrite <- Hkeep. now apply NoDup_map_filter.
    + simpl in Hnd. inversion Hnd as [| ? ? Hnotin _]; subst.
      intros Hin. apply Hnotin. apply in_or_app. right. exact Hin.
Qed.

(** C4, as the code has it.  In every sample that
    [query_trees_by_plots] returns, each row has a [PLOT_ID] that is the
    [PLOT_ID] of one of the plots, and its [TREE_ID] is the index label
    the row had in the tree table: the [TREE_ID] column is the labels of
    the surviving table rows in table order, not a numbering of the
    result.  Every [TREE_ID] of a returned sample is unique when
    [TreeSample] wants a unique index and no label occurs twice within a
    partition of the table: the result is then of rows of one partition.
    Whatever [TreeSample] checks, the [TREE_ID]s are distinct exactly
    when the labels of the surviving table rows are, and so whenever the
    labels of the table are. *)
Theorem query_rows_linked_and_labelled
    (self : t) (plots : list Plots.row) (sample : TreeSample) :
  query_trees_by_plots self plots = Ok sample ->
  (forall r, In r (frame_rows (data sample)) ->
             In (Metric.PLOT_ID r) (map Plots.PLOT_ID plots))
  /\ map Metric.TREE_ID (frame_rows (data sample))
     = map Table.index (surviving self plots)
  /\ (wants_unique_index S ->
      labels_distinct_in_partitions (_tree_table self) ->
      NoDup (map Metric.TREE_ID (frame_rows (data sample))))
  /\ (NoDup (map Metric.TREE_ID (frame_rows (data sample)))
      <-> NoDup (map Table.index (surviving self plots)))
  /\ (NoDup (map Table.index (_tree_table self)) ->
      NoDup (map Metric.TREE_ID (frame_rows (data sample)))).
Proof.
  intros H. split; [| split; [| split; [| split]]].
  - intros r. rewrite (query_rows _ _ H), in_map_iff.
    intros (src & <- & Hsrc). simpl. now apply surviving_linked.
  - apply (query_ids _ _ H).
  - intros Hschema Hlabels. rewrite (query_ids _ _ H).
    rewrite <- filter_is_surviving.
    rewrite <- (partitions_concat (_tree_table self)).
    apply unique_index_unique_labels; [exact Hlabels |].
    pose proof (query_returns _ _ H) as Hdata.
    assert (Hnone : schema_refuses (metric_data_of (trees self plots))
                    = None).
    { revert H. unfold query_trees_by_plots,
        convert_treemap_data_to_fastfuels, TreeSample__init__.
      destruct (schema_refuses (metric_data_of (trees self plots)));
        [discriminate | reflexivity]. }
    apply Hschema in Hnone. exact Hnone.
  - rewrite (query_ids _ _ H). reflexivity.
  - intros Hnd. rewrite (query_ids _ _ H). unfold surviving.
    now apply NoDup_map_filter.
Qed.

Lemma isin_same_ids (ids ids' : list Z) :
  (forall id, In id ids <-> In id ids') ->
  forall x, isin (unique ids) x = isin (unique ids') x.
Proof.
  intros Hsame x. rewrite !isin_unique.
  destruct (in_dec Z.eq_dec x ids) as [H | H];
    destruct (in_dec Z.eq_dec x ids') as [H' | H'];
    try reflexivity; exfalso.
  - apply H'. now apply Hsame.
  - apply H. now apply Hsame.
Qed.

(** C9.  Two frames of plots with the same set of [PLOT_ID] values get
    the same answer from [query_trees_by_plots]. *)
Theorem query_depends_on_plot_id_set
    (self : t) (plots plots' : list Plots.row) :
  (forall id, In id (map Plots.PLOT_ID plots)
              <-> In id (map Plots.PLOT_ID plots')) ->
  query_trees_by_plots self plots = query_trees_by_plots self plots'.
Proof.
  intros Hsame. unfold query_trees_by_plots. f_equal.
  unfold trees. f_equal.
  - unfold computed_index. cbv zeta. f_equal. apply map_ext.
    intros partition. do 3 f_equal. apply filter_ext. intros r.
    apply isin_same_ids. exact Hsame.
  - rewrite !trees_of_surviving. f_equal.
    unfold surviving. apply filter_ext. intros r.
    destruct (in_dec Z.eq_dec _ (map Plots.PLOT_ID plots)) as [H | H];
      destruct (in_dec Z.eq_dec _ (map Plots.PLOT_ID plots')) as [H' | H'];
      try reflexivity; exfalso.
    + apply H'. now apply Hsame.
    + apply H. now apply Hsame.
Qed.

Lemma Forall2_combine_In {A C} (R : A -> C -> Prop) (l : list A)
    (l' : list C) (x : A) (y : C) :
  Forall2 R l l' -> In (x, y) (combine l l') -> R x y.
Proof.
  induction 1 as [| a c l l' Hac _ IH]; simpl; [tauto |].
  intros [Heq | Hin]; [| auto]. injection Heq as <- <-. exact Hac.
Qed.

Lemma heights_coalesced (self : t) (plots : list Plots.row) :
  Forall2 coalesced (surviving self plots) (trees_of self plots).
Proof.
  rewrite trees_of_surviving.
  induction (surviving self plots) as [| r l IH]; simpl; constructor;
    [| exact IH].
  unfold coalesced. simpl. split; intros ->; reflexivity.
Qed.

(** C5.  Before the unit conversion, the frame has one row per surviving
    table row, in order, and the height of each is that row's [ACTUALHT]
    when it is not missing and that row's [HT] when it is.  So a table row
    with [ACTUALHT] missing and [HT] 15 gives height 15, and one with
    [ACTUALHT] 12 and [HT] 15 gives height 12. *)
Theorem height_is_per_row_coalesce (self : t) (plots : list Plots.row) :
  Forall2 coalesced (surviving self plots) (trees_of self plots)
  /\ forall src out,
      In (src, out) (combine (surviving self plots) (trees_of self plots)) ->
      Table.HT src = 15%float ->
      (PrimFloat.is_nan (Table.ACTUALHT src) = true ->
       Trees.HT out = 15%float)
      /\ (Table.ACTUALHT src = 12%float -> Trees.HT out = 12%float).
Proof.
  split; [apply heights_coalesced |].
  intros src out Hin Hht.
  destruct (@Forall2_combine_In _ _ coalesced _ _ src out
              (heights_coalesced self plots) Hin)
    as [Hpresent Hmissing].
  split.
  - intros Hnan. rewrite <- Hht. apply Hmissing.
    unfold notnull. now rewrite Hnan.
  - intros H12. rewrite <- H12. apply Hpresent. now rewrite H12.
Qed.
End Query.

(** ** The unit normalizer *)

(** C6.  The frame that [convert_treemap_data_to_fastfuels] builds and
    hands to [TreeSample] has the index of its input and one row per
    input row, in order, with [CR / 100], [HT * 0.3048], [DIA * 2.54] and
    [TPA_UNADJ * 2.47105 / 10000] under the name [TPA], each computed from
    that row alone.  The converter returns a sample exactly of that frame,
    and raises only what the schema of [TreeSample] raises on it.  In a
    returned sample, a row with DIA 10, HT 20, CR 50 and TPA_UNADJ 100 has
    come out with DIA 25.4, HT 6.096, CR 0.5 and TPA 0.0247105, as
    binary64 numbers and so within rounding noise. *)
Theorem convert_normalizes_each_row {S : SampleBackend}
    (data0 : DataFrame Trees.row) :
  Forall2 normalized (frame_rows data0)
    (frame_rows (metric_data_of data0))
  /\ frame_index (metric_data_of data0) = frame_index data0
  /\ (forall sample,
         convert_treemap_data_to_fastfuels data0 = Ok sample ->
         data sample = metric_data_of data0)
  /\ (forall e,
         convert_treemap_data_to_fastfuels data0 = Raise e ->
         schema_refuses (metric_data_of data0) = Some e)
  /\ forall sample r out,
      convert_treemap_data_to_fastfuels data0 = Ok sample ->
      In (r, out) (combine (frame_rows data0) (frame_rows (data sample))) ->
      Trees.DIA r = 10%float -> Trees.HT r = 20%float ->
      Trees.CR r = 50%float -> Trees.TPA_UNADJ r = 100%float ->
      (Metric.DIA out = 25.4 /\ Metric.HT out = 6.096
       /\ Metric.CR out = 0.5 /\ Metric.TPA out = 0.0247105)%float
      /\ close (Metric.DIA out) 25.4 = true
      /\ close (Metric.HT out) 6.096 = true
      /\ close (Metric.CR out) 0.5 = true
      /\ close (Metric.TPA out) 0.0247105 = true.
Proof.
  assert (Hrows : Forall2 normalized (frame_rows data0)
                    (frame_rows (metric_data_of data0))).
  { unfold metric_data_of. simpl.
    induction (frame_rows data0) as [| r l IH]; simpl; constructor;
      [| exact IH].
    unfold normalized. simpl. repeat split. }
  assert (Hok : forall sample,
             convert_treemap_data_to_fastfuels data0 = Ok sample ->
             data sample = metric_data_of data0).
  { intros sample. unfold convert_treemap_data_to_fastfuels,
      TreeSample__init__.
    destruct (schema_refuses (metric_data_of data0)); [discriminate |].
    intros H. injection H as <-. reflexivity. }
  split; [exact Hrows |]. split; [reflexivity |]. split; [exact Hok |].
  split.
  - intros e. unfold convert_treemap_data_to_fastfuels, TreeSample__init__.
    destruct (schema_refuses (metric_data_of data0)); [| discriminate].
    intros H. injection H as <-. reflexivity.
  - intros sample r out Hsample Hin Hdia Hht Hcr Htpa.
    rewrite (Hok _ Hsample) in Hin.
    destruct (@Forall2_combine_In _ _ normalized _ _ r out Hrows Hin)
      as (Ecr & Eht & Edia & Etpa & _).
    rewrite Ecr, Eht, Edia, Etpa, Hdia, Hht, Hcr, Htpa.
    repeat split; vm_compute; reflexivity.
Qed.

(** ** The tree-table statements on the small backend *)

Module QueryExamples.
Import TreeMapConnection Flat FlatSamples.

Example query_plot_5 :
  query_trees_by_plots tm_conn [plot 5] = Ok sample_5
  /\ frame_index (data sample_5) = [0; 1]%Z
  /\ map (fun r => (Metric.TREE_ID r, Metric.PLOT_ID r))
       (frame_rows (data sample_5))
     = [(0, 5); (2, 5)]%Z.
Proof. repeat split. Qed.

(** The surviving rows keep the labels 0 and 2 they had in the table;
    numbering the result by position would give 0 and 1. *)
Lemma tree_ids_are_not_positional :
  query_trees_by_plots tm_conn [plot 5] = Ok sample_5
  /\ ~ positional (map Metric.TREE_ID (frame_rows (data sample_5))).
Proof.
  split; [reflexivity |]. unfold positional. vm_compute. discriminate.
Qed.

(** Of a table in two partitions, rows of both partitions give a frame
    whose index restarts; this schema refuses it. *)
Example two_partitions_are_refused :
  map Trees.TREE_ID (trees_of tm_conn_two_partitions [plot 7]) = [1; 1]%Z
  /\ computed_index tm_conn_two_partitions [plot 7] = [0; 0]%Z
  /\ query_trees_by_plots tm_conn_two_partitions [plot 7]
     = Raise (Exn (ForeignError "SchemaError")
                "series contains duplicate values").
Proof. repeat split. Qed.

Lemma has_duplicates_false (l : list Z) :
  has_duplicates l = false -> NoDup l.
Proof.
  induction l as [| x l IH]; simpl; [constructor |].
  intros H. apply orb_false_iff in H as [Hx Hl].
  constructor; [| auto].
  intros Hin. rewrite <- not_true_iff_false in Hx. apply Hx.
  apply existsb_exists. exists x. split; [exact Hin | apply Z.eqb_refl].
Qed.

(** The schema of the small backend wants a unique index. *)
Lemma schema_wants_unique_index : wants_unique_index schema.
Proof.
  intros frame. simpl. unfold schema_check.
  destruct (has_duplicates (frame_index frame)) eqn:Hdup; [discriminate |].
  intros _. now apply has_duplicates_false.
Qed.

(** With the trees of plot 9 all in the second partition, the query for
    plot 9 returns them with the labels 0 and 1 of that partition; the
    query for plots 5 and 9 takes rows of both partitions and is
    refused. *)
Example one_partition_is_returned :
  map Table.index (_tree_table tm_conn_plot_9_apart) = [0; 1; 0; 1]%Z
  /\ query_trees_by_plots tm_conn_plot_9_apart [plot 9] = Ok sample_9_apart
  /\ map Metric.TREE_ID (frame_rows (data sample_9_apart)) = [0; 1]%Z
  /\ query_trees_by_plots tm_conn_plot_9_apart [plot 5; plot 9]
     = Raise (Exn (ForeignError "SchemaError")
                "series contains duplicate values").
Proof. repeat split. Qed.

Lemma query_rows_linked_and_labelled_witness :
  query_trees_by_plots tm_conn_plot_9_apart [plot 9; plot 9]
  = Ok sample_9_apart
  /\ wants_unique_index schema
  /\ labels_distinct_in_partitions (_tree_table tm_conn_plot_9_apart)
  /\ ~ NoDup (map Table.index (_tree_table tm_conn_plot_9_apart))
  /\ map Metric.TREE_ID (frame_rows (data sample_9_apart)) = [0; 1]%Z
  /\ NoDup (map Metric.TREE_ID (frame_rows (data sample_9_apart))).
Proof.
  assert (Hlabels : labels_distinct_in_partitions
                      (_tree_table tm_conn_plot_9_apart)).
  { unfold labels_distinct_in_partitions. simpl.
    repeat constructor; simpl; intuition discriminate. }
  destruct (@query_rows_linked_and_labelled backend schema layout
              tm_conn_plot_9_apart [plot 9; plot 9] sample_9_apart eq_refl)
    as (_ & Hids & Hunique & _).
  split; [reflexivity |]. split; [exact schema_wants_unique_index |].
  split; [exact Hlabels |]. split.
  - simpl. intros Hnd. inversion Hnd as [| ? ? Hnotin _]; subst.
    apply Hnotin. simpl. auto.
  - split; [exact Hids |].
    exact (Hunique schema_wants_unique_index Hlabels).
Defined.

Lemma query_depends_on_plot_id_set_witness :
  (forall id, In id (map Plots.PLOT_ID [plot 5; plot 5; plot 7])
              <-> In id (map Plots.PLOT_ID [plot 7; plot 5]))
  /\ query_trees_by_plots tm_conn [plot 5; plot 5; plot 7]
     = query_trees_by_plots tm_conn [plot 7; plot 5].
Proof.
  assert (Hsame : forall id,
             In id (map Plots.PLOT_ID [plot 5; plot 5; plot 7])
             <-> In id (map Plots.PLOT_ID [plot 7; plot 5])).
  { intros id. simpl. tauto. }
  split; [exact Hsame |].
  apply (query_depends_on_plot_id_set tm_conn _ _ Hsame).
Defined.

(** Rows 0 and 2 have no [ACTUALHT] and keep their [HT] (20 and 15); row 1
    has [ACTUALHT] 12 and [HT] 15 and gets 12. *)
Example heights_before_conversion :
  map Trees.HT (trees_of tm_conn [plot 5; plot 7]) = [20; 12; 15]%float.
Proof. reflexivity. Qed.

Lemma height_is_per_row_coalesce_witness :
  In (row 2 5 12 15 nan 35 6, tree 2 5 12 15 35 6)%float
    (combine (surviving tm_conn [plot 5; plot 7])
       (trees_of tm_conn [plot 5; plot 7]))
  /\ In (row 1 7 8 15 12 40 6, tree 1 7 8 12 40 6)%float
       (combine (surviving tm_conn [plot 5; plot 7])
          (trees_of tm_conn [plot 5; plot 7]))
  /\ Trees.HT (tree 2 5 12 15 35 6)%float = 15%float
  /\ Trees.HT (tree 1 7 8 12 40 6)%float = 12%float.
Proof.
  assert (Hmissing :
    In (row 2 5 12 15 nan 35 6, tree 2 5 12 15 35 6)%float
      (combine (surviving tm_conn [plot 5; plot 7])
         (trees_of tm_conn [plot 5; plot 7]))) by (vm_compute; auto).
  assert (Hpresent :
    In (row 1 7 8 15 12 40 6, tree 1 7 8 12 40 6)%float
      (combine (surviving tm_conn [plot 5; plot 7])
         (trees_of tm_conn [plot 5; plot 7]))) by (vm_compute; auto).
  split; [exact Hmissing |]. split; [exact Hpresent |]. split.
  - apply (proj1 (proj2 (height_is_per_row_coalesce
                           tm_conn [plot 5; plot 7])
                    _ _ Hmissing eq_refl)).
    reflexivity.
  - apply (proj2 (proj2 (height_is_per_row_coalesce
                           tm_conn [plot 5; plot 7])
                    _ _ Hpresent eq_refl)).
    reflexivity.
Defined.

Lemma convert_normalizes_each_row_witness :
  convert_treemap_data_to_fastfuels imperial_frame = Ok metric_sample
  /\ In (imperial_row, metric_row)
       (combine (frame_rows imperial_frame)
          (frame_rows (data metric_sample)))
  /\ (Trees.DIA imperial_row = 10 /\ Trees.HT imperial_row = 20
      /\ Trees.CR imperial_row = 50
      /\ Trees.TPA_UNADJ imperial_row = 100)%float
  /\ (Metric.DIA metric_row = 25.4 /\ Metric.HT metric_row = 6.096
      /\ Metric.CR metric_row = 0.5
      /\ Metric.TPA metric_row = 0.0247105)%float
  /\ close (Metric.TPA metric_row) 0.0247105 = true.
Proof.
  assert (Hin : In (imperial_row, metric_row)
                  (combine (frame_rows imperial_frame)
                     (frame_rows (data metric_sample))))
    by (left; reflexivity).
  destruct (proj2 (proj2 (proj2 (proj2
              (@convert_normalizes_each_row schema imperial_frame))))
              metric_sample imperial_row metric_row eq_refl Hin
              eq_refl eq_refl eq_refl eq_refl)
    as (Hexact & _ & _ & _ & Hclose).
  split; [reflexivity |]. split; [exact Hin |].
  split; [repeat split |]. split; [exact Hexact | exact Hclose].
Defined.

(** A tree of 400 ft is 121.92 m: this schema refuses it, and the
    converter raises what the schema raises. *)
Example tall_tree_is_refused :
  convert_treemap_data_to_fastfuels
    {| frame_index := [0%Z];
       frame_rows := [tree 0 5 10 400 50 100]%float |}
  = Raise (Exn (ForeignError "SchemaError")
             "HT failed element-wise validator less_than_or_equal_to(116)").
Proof. reflexivity. Qed.
End QueryExamples.

(** * Further properties of the code *)

(** ** [RasterConnection.__init__] *)

Section RasterInit.
Context {B : Backend}.
Import RasterConnection.

(** X1.  [__init__] returns exactly when the connection type is "rioxarray"
    and the raster opens; the connection then holds the raster and the
    CRS, the absolute x-resolution, the bounds and the dtype read off
    it. *)
Theorem raster_init_succeeds_iff (path ct : string) (self : t) :
  __init__ path ct = Ok self
  <-> ct = "rioxarray"%string
      /\ exists r,
          open_rasterio path = Ok r
          /\ self = {| connection_type := "rioxarray";
                       opened := Some {|
                         raster := r;
                         raster_crs := rio_crs r;
                         raster_resolution := Qabs (fst (rio_resolution r));
                         raster_bounds := rio_bounds r;
                         raster_dtype := da_dtype r |} |}.
Proof.
  split.
  - unfold __init__.
    destruct (existsb (String.eqb ct) allowed_connection_types) eqn:Hin;
      simpl; [| discriminate].
    apply allowed_is_rioxarray in Hin. subst ct. simpl.
    destruct (open_rasterio path) as [r | e]; [| discriminate].
    intros H. injection H as <-. split; [reflexivity |].
    exists r. split; reflexivity.
  - intros [-> (r & Hopen & ->)]. unfold __init__. simpl.
    rewrite Hopen. reflexivity.
Qed.

(** X2.  [__init__] raises in two ways only: [ValueError] for a connection
    type other than "rioxarray", before the raster is touched, and
    otherwise whatever [open_rasterio] raised, unchanged. *)
Theorem raster_init_raises_iff (path ct : string) (e : exn) :
  __init__ path ct = Raise e
  <-> (ct <> "rioxarray"%string
       /\ e = Exn ValueError
                ("Connection type " ++ ct ++ " not supported."))
      \/ (ct = "rioxarray"%string /\ open_rasterio path = Raise e).
Proof.
  unfold __init__, allowed_connection_types. simpl. rewrite orb_false_r.
  destruct (String.eqb ct "rioxarray") eqn:E; simpl.
  - apply String.eqb_eq in E. subst ct.
    destruct (open_rasterio path) as [r | e'] eqn:Hopen; simpl; split.
    + discriminate.
    + intros [[Hne _] | [_ H]]; [congruence | discriminate].
    + intros H. injection H as <-. right. split; reflexivity.
    + intros [[Hne _] | [_ H]]; [congruence |].
      injection H as <-. reflexivity.
  - apply String.eqb_neq in E. split.
    + intros H. injection H as <-. left. split; [exact E | reflexivity].
    + intros [[_ ->] | [Heq _]]; [reflexivity | contradiction].
Qed.

(** X3.  On a connection that [__init__] returned, reading the raster
    attributes never fails, and the cached resolution is not negative
    whatever the sign of the raster's own. *)
Theorem constructed_connection_has_attributes
    (path ct : string) (self : t) :
  __init__ path ct = Ok self ->
  exists a,
    getattrs self = Ok a
    /\ open_rasterio path = Ok (raster a)
    /\ (0 <= raster_resolution a)%Q
    /\ raster_bounds a = rio_bounds (raster a)
    /\ raster_crs a = rio_crs (raster a).
Proof.
  intros Hinit. destruct (init_inv _ _ Hinit) as [_ (r & Hopen & Hop)].
  eexists. split; [apply getattrs_opened; exact Hop |]. simpl.
  split; [exact Hopen |]. split; [apply Qabs_nonneg |].
  split; reflexivity.
Qed.
End RasterInit.

(** ** [roi_within_raster_bounds], continued *)

Section ContainsMore.
Context {B : Backend}.
Import RasterConnection.

Lemma contains_value (self : t) (a : attrs) (roi : GeoDataFrame) :
  opened self = Some a ->
  value (roi_within_raster_bounds self roi)
  = (r <- gdf_to_crs roi (raster_crs a) ;;
     ret (Qle_bool (minx (raster_bounds a)) (minx (gdf_total_bounds r))
          && Qle_bool (miny (raster_bounds a)) (miny (gdf_total_bounds r))
          && Qle_bool (maxx (gdf_total_bounds r)) (maxx (raster_bounds a))
          && Qle_bool (maxy (gdf_total_bounds r)) (maxy (raster_bounds a)))).
Proof.
  intros Hop. unfold roi_within_raster_bounds.
  rewrite (getattrs_opened _ Hop), value_bind. unfold lift.
  cbn [value snd]. rewrite value_bind. unfold to_crs. cbn [value snd].
  destruct (gdf_to_crs roi (raster_crs a)); reflexivity.
Qed.

Lemma contains_true_iff (self : t) (a : attrs) (roi r : GeoDataFrame) :
  opened self = Some a ->
  gdf_to_crs roi (raster_crs a) = Ok r ->
  value (roi_within_raster_bounds self roi) = Ok true
  <-> box_within (gdf_total_bounds r) (raster_bounds a).
Proof.
  intros Hop Hr. rewrite (@contains_value self a roi Hop), Hr. simpl.
  unfold box_within. split.
  - intros H. injection H as H.
    rewrite !andb_true_iff, !Qle_bool_iff in H. tauto.
  - intros H. f_equal. rewrite !andb_true_iff, !Qle_bool_iff. tauto.
Qed.

(** X4.  [roi_within_raster_bounds] raises exactly when the reprojection of
    the ROI does, and raises that exception. *)
Theorem contains_raises_iff
    (self : t) (a : attrs) (roi : GeoDataFrame) (e : exn) :
  opened self = Some a ->
  value (roi_within_raster_bounds self roi) = Raise e
  <-> gdf_to_crs roi (raster_crs a) = Raise e.
Proof.
  intros Hop. rewrite (@contains_value self a roi Hop).
  destruct (gdf_to_crs roi (raster_crs a)) as [r | e']; simpl; split;
    intros H; try discriminate; injection H as <-; reflexivity.
Qed.

(** X5.  An ROI whose reprojected box is the raster's own bounds is within
    them, and so is every ROI whose reprojected box lies within the box of
    an ROI that is. *)
Theorem contains_is_inclusive_and_antitone
    (self : t) (a : attrs) (roi roi' r r' : GeoDataFrame) :
  opened self = Some a ->
  gdf_to_crs roi (raster_crs a) = Ok r ->
  gdf_to_crs roi' (raster_crs a) = Ok r' ->
  (gdf_total_bounds r = raster_bounds a ->
   value (roi_within_raster_bounds self roi) = Ok true)
  /\ (box_within (gdf_total_bounds r) (gdf_total_bounds r') ->
      value (roi_within_raster_bounds self roi') = Ok true ->
      value (roi_within_raster_bounds self roi) = Ok true).
Proof.
  intros Hop Hr Hr'. split.
  - intros Heq. apply (@contains_true_iff self a roi r Hop Hr).
    rewrite Heq. apply box_within_refl.
  - intros Hin Hout. apply (@contains_true_iff self a roi r Hop Hr).
    apply (@contains_true_iff self a roi' r' Hop Hr') in Hout.
    unfold box_within in *. repeat split; lra.
Qed.
End ContainsMore.

(** ** [_extract_window_rioxarray], continued *)

Section ExtractionMore.
Context {B : Backend}.
Import RasterConnection.

Ltac step_calls :=
  cbn [bind ret M_monad M_bind result_monad lift to_crs clip_box reproject
       value calls fst snd app negb].

Ltac run_calls :=
  step_calls;
  repeat match goal with
    | |- context [match ?x with Ok _ => _ | Raise _ => _ end] =>
        destruct x eqn:?; step_calls
    end.

Ltac returned_calls :=
  repeat constructor; cbn [returned]; eexists; eassumption.

Lemma crs_differ (x y : CRS) : x <> y -> CRS_eqb x y = false.
Proof.
  intros Hne. apply not_true_iff_false. intros H.
  apply CRS_eqb_eq in H. contradiction.
Qed.

(** X6.  The code raises nothing of its own and masks nothing: when a run of
    [_extract_window_rioxarray] raises, the exception is the one the last
    logged backend call raised, and every call before it returned; when
    the run returns, every logged call returned. *)
Theorem extraction_stops_at_first_failure
    (self : t) (a : attrs) (roi : GeoDataFrame) (pp : Q) (ipc : Z) :
  opened self = Some a ->
  (forall e,
      value (_extract_window_rioxarray self roi pp ipc) = Raise e ->
      exists pre c,
        calls (_extract_window_rioxarray self roi pp ipc) = pre ++ [c]
        /\ raised_by c e /\ Forall returned pre)
  /\ (forall w,
         value (_extract_window_rioxarray self roi pp ipc) = Ok w ->
         Forall returned (calls (_extract_window_rioxarray self roi pp ipc))).
Proof.
  intros Hop. unfold _extract_window_rioxarray.
  rewrite (getattrs_opened _ Hop). step_calls.
  destruct (CRS_eqb (gdf_crs roi) (raster_crs a)); run_calls;
    (split; [intros e' Hv | intros w' Hv]);
    try discriminate; try (injection Hv as <-);
    try returned_calls.
  all: first
    [ eexists [], _ ; split; [reflexivity |]
    | eexists [_], _ ; split; [reflexivity |]
    | eexists [_; _], _ ; split; [reflexivity |]
    | eexists [_; _; _], _ ; split; [reflexivity |] ].
  all: split; [cbn [raised_by]; assumption | returned_calls || constructor].
Qed.

(** X7.  When the CRSs differ and the first three backend calls return, the
    run consists of four calls in this order: the ROI into the raster's
    CRS, the raster clipped to the reprojected bounds grown by the
    projection padding, that window into the ROI's CRS, and the final
    clip, whose outcome is the run's. *)
Theorem extraction_calls_when_crs_differ
    (self : t) (a : attrs) (roi r : GeoDataFrame) (pp : Q) (ipc : Z)
    (window window_reprojected : DataArray) :
  opened self = Some a ->
  gdf_crs roi <> raster_crs a ->
  gdf_to_crs roi (raster_crs a) = Ok r ->
  rio_clip_box (raster a) (pad (gdf_total_bounds r) pp) = Ok window ->
  rio_reproject window (gdf_crs roi) = Ok window_reprojected ->
  _extract_window_rioxarray self roi pp ipc
  = ([CallToCrs roi (raster_crs a);
      CallClipBox (raster a) (pad (gdf_total_bounds r) pp);
      CallReproject window (gdf_crs roi);
      CallClipBox window_reprojected
        (pad (gdf_total_bounds roi)
           (inject_Z ipc * raster_resolution a))],
     rio_clip_box window_reprojected
       (pad (gdf_total_bounds roi) (inject_Z ipc * raster_resolution a))).
Proof.
  intros Hop Hne Hr Hwin Hrep. unfold _extract_window_rioxarray.
  rewrite (getattrs_opened _ Hop). step_calls.
  rewrite (crs_differ Hne). step_calls. rewrite Hr. step_calls.
  unfold pad in *. rewrite Hwin. step_calls. rewrite Hrep. step_calls.
  destruct (rio_clip_box window_reprojected _); reflexivity.
Qed.

(** X8.  The interpolation padding enters the last clip only: if a run
    returns, then for every other number of cells the run makes the same
    calls up to the last one, and ends by clipping the same window to the
    ROI's bounds grown by that number of cells. *)
Theorem interpolation_padding_enters_last_clip_only
    (self : t) (a : attrs) (roi : GeoDataFrame) (pp : Q) (ipc : Z)
    (w : DataArray) :
  opened self = Some a ->
  value (_extract_window_rioxarray self roi pp ipc) = Ok w ->
  exists pre window_reprojected,
    forall ipc',
      _extract_window_rioxarray self roi pp ipc'
      = (pre ++ [CallClipBox window_reprojected
                   (pad (gdf_total_bounds roi)
                      (inject_Z ipc' * raster_resolution a))],
         rio_clip_box window_reprojected
           (pad (gdf_total_bounds roi)
              (inject_Z ipc' * raster_resolution a))).
Proof.
  intros Hop Hv. rewrite (value_extract self roi pp ipc Hop) in Hv.
  destruct (CRS_eqb (gdf_crs roi) (raster_crs a)) eqn:Hcrs;
    cbn [negb bind ret result_monad] in Hv.
  - destruct (rio_clip_box (raster a) (pad (gdf_total_bounds roi) pp))
      as [window | e] eqn:Hwin; [| discriminate].
    exists [CallClipBox (raster a) (pad (gdf_total_bounds roi) pp)], window.
    clear Hv. intros ipc'. unfold _extract_window_rioxarray.
    rewrite (getattrs_opened _ Hop). step_calls. rewrite Hcrs. step_calls.
    unfold pad in *. rewrite Hwin. step_calls.
    destruct (rio_clip_box window _); reflexivity.
  - destruct (gdf_to_crs roi (raster_crs a)) as [r | e] eqn:Hr;
      [| discriminate].
    destruct (rio_clip_box (raster a) (pad (gdf_total_bounds r) pp))
      as [window | e] eqn:Hwin; [| discriminate].
    destruct (rio_reproject window (gdf_crs roi))
      as [window_reprojected | e] eqn:Hrep; [| discriminate].
    exists [CallToCrs roi (raster_crs a);
            CallClipBox (raster a) (pad (gdf_total_bounds r) pp);
            CallReproject window (gdf_crs roi)], window_reprojected.
    clear Hv. intros ipc'. unfold _extract_window_rioxarray.
    rewrite (getattrs_opened _ Hop). step_calls. rewrite Hcrs. step_calls.
    rewrite Hr. step_calls. unfold pad in *. rewrite Hwin. step_calls.
    rewrite Hrep. step_calls.
    destruct (rio_clip_box window_reprojected _); reflexivity.
Qed.
End ExtractionMore.

(** ** [str.endswith] *)

Lemma append_empty_r (s : string) : (s ++ "")%string = s.
Proof. induction s as [| c s IH]; simpl; [reflexivity | now rewrite IH]. Qed.

Lemma append_associative (a b c : string) :
  ((a ++ b) ++ c)%string = (a ++ (b ++ c))%string.
Proof. induction a as [| x a IH]; simpl; [reflexivity | now rewrite IH]. Qed.

Lemma rev_string_acc (s acc : string) :
  rev_string s acc = (rev_string s "" ++ acc)%string.
Proof.
  revert acc. induction s as [| c s IH]; intros acc; simpl; [reflexivity |].
  rewrite (IH (String c acc)), (IH (String c "")), append_associative.
  reflexivity.
Qed.

Lemma rev_string_append (a b : string) :
  rev_string (a ++ b) "" = (rev_string b "" ++ rev_string a "")%string.
Proof.
  induction a as [| c a IH]; simpl.
  - now rewrite append_empty_r.
  - rewrite (rev_string_acc (a ++ b)), IH, append_associative.
    now rewrite <- (rev_string_acc a).
Qed.

Lemma rev_string_involutive (s : string) :
  rev_string (rev_string s "") "" = s.
Proof.
  induction s as [| c s IH]; simpl; [reflexivity |].
  rewrite (rev_string_acc s), rev_string_append, IH. reflexivity.
Qed.

Lemma startswith_iff (s prefix : string) :
  startswith s prefix = true <-> exists rest, s = (prefix ++ rest)%string.
Proof.
  revert s. induction prefix as [| p prefix IH]; intros s.
  - split; [intros _; now exists s | intros _; now destruct s].
  - destruct s as [| c s]; simpl.
    + split; [discriminate | intros [rest H]; discriminate].
    + rewrite andb_true_iff, Ascii.eqb_eq, IH. split.
      * intros [-> [rest ->]]. now exists rest.
      * intros [rest H]. injection H as -> ->. split; [reflexivity |].
        now exists rest.
Qed.

Lemma endswith_iff (s suffix : string) :
  endswith s suffix = true <-> exists front, s = (front ++ suffix)%string.
Proof.
  unfold endswith. rewrite startswith_iff. split.
  - intros [rest H]. exists (rev_string rest "").
    rewrite <- (rev_string_involutive s), H, rev_string_append.
    now rewrite rev_string_involutive.
  - intros [front ->]. exists (rev_string front "").
    apply rev_string_append.
Qed.

(** ** [TreeMapConnection.__init__], continued *)

Section TreeMapInit.
Context {B : Backend} {T : TabularBackend}.
Import TreeMapConnection.

Lemma version_valid_iff (v : string) :
  existsb (String.eqb v) ["2014"; "2016"]%string = true
  <-> v = "2014"%string \/ v = "2016"%string.
Proof.
  rewrite existsb_eqb_In. simpl. intuition congruence.
Qed.

(** X9.  [__init__] returns exactly when the version is "2014" or "2016", the
    raster opens as a "rioxarray" connection, and the table path is some
    text followed by ".csv" that the CSV reader reads, or, failing the
    first ending, some text followed by ".parquet" that the parquet
    reader reads.  The connection then holds that raster connection and
    that table, and its linkage column is [tl_id] for 2014 and [tm_id] for
    2016. *)
Theorem treemap_init_succeeds_iff
    (treemap_path tree_table_path v : string) (self : t) :
  __init__ treemap_path tree_table_path v = Ok self
  <-> (v = "2014"%string \/ v = "2016"%string)
      /\ exists base0 table,
          RasterConnection.__init__ treemap_path "rioxarray" = Ok base0
          /\ (((exists front, tree_table_path = (front ++ ".csv")%string)
               /\ dd_read_csv tree_table_path = Ok table)
              \/ ((~ exists front,
                      tree_table_path = (front ++ ".csv")%string)
                  /\ (exists front,
                         tree_table_path = (front ++ ".parquet")%string)
                  /\ dd_read_parquet tree_table_path = Ok table))
          /\ self = {| base := base0;
                       version := v;
                       _tl_key := if String.eqb v "2014"
                                  then "tl_id"%string else "tm_id"%string;
                       raster_path := treemap_path;
                       table_path := tree_table_path;
                       _tree_table := table |}.
Proof.
  unfold __init__. rewrite <- version_valid_iff.
  destruct (existsb (String.eqb v) ["2014"; "2016"]%string); simpl.
  2: { split; [discriminate | intros [H _]; discriminate]. }
  destruct (RasterConnection.__init__ treemap_path "rioxarray")
    as [base0 | e]; simpl.
  2: { split; [discriminate |].
       intros [_ (b & tb & H & _)]. discriminate. }
  unfold try_except_FileNotFoundError.
  destruct (endswith tree_table_path ".csv") eqn:Hcsv.
  - assert (Hc : exists front, tree_table_path = (front ++ ".csv")%string)
      by (apply endswith_iff; exact Hcsv).
    destruct (dd_read_csv tree_table_path) as [table | e] eqn:Hread; simpl.
    + split.
      * intros H. injection H as <-. split; [reflexivity |].
        exists base0, table. split; [reflexivity |].
        split; [left; split; [exact Hc | reflexivity] | reflexivity].
      * intros [_ (b & tb & Hb & [[_ Hr] | (Hn & _)] & ->)].
        -- injection Hb as <-. injection Hr as <-. reflexivity.
        -- contradiction.
    + split.
      * destruct (exn_cls e); discriminate.
      * intros [_ (b & tb & _ & [[_ Hr] | (Hn & _)] & _)];
          [discriminate | contradiction].
  - assert (Hc : ~ exists front,
                     tree_table_path = (front ++ ".csv")%string).
    { intros H. apply endswith_iff in H. congruence. }
    destruct (endswith tree_table_path ".parquet") eqn:Hpq.
    + assert (Hp : exists front,
                     tree_table_path = (front ++ ".parquet")%string)
        by (apply endswith_iff; exact Hpq).
      destruct (dd_read_parquet tree_table_path) as [table | e] eqn:Hread;
        simpl.
      * split.
        -- intros H. injection H as <-. split; [reflexivity |].
           exists base0, table. split; [reflexivity |].
           split; [right | reflexivity].
           split; [exact Hc | split; [exact Hp | reflexivity]].
        -- intros [_ (b & tb & Hb & [[Hc' _] | (_ & _ & Hr)] & ->)];
             [contradiction |].
           injection Hb as <-. injection Hr as <-. reflexivity.
      * split.
        -- destruct (exn_cls e); discriminate.
        -- intros [_ (b & tb & _ & [[Hc' _] | (_ & _ & Hr)] & _)];
             [contradiction | discriminate].
    + assert (Hp : ~ exists front,
                       tree_table_path = (front ++ ".parquet")%string).
      { intros H. apply endswith_iff in H. congruence. }
      simpl. split; [discriminate |].
      intros [_ (b & tb & _ & [[Hc' _] | (_ & Hp' & _)] & _)];
        contradiction.
Qed.

(** X10.  A raster that does not open fails the construction with the raster's
    own exception, whatever the table path is: the table is not looked at
    before the raster. *)
Theorem treemap_init_raster_error_first
    (treemap_path tree_table_path v : string) (e : exn) :
  v = "2014"%string \/ v = "2016"%string ->
  open_rasterio treemap_path = Raise e ->
  __init__ treemap_path tree_table_path v = Raise e.
Proof.
  intros Hv Hopen. apply version_valid_iff in Hv.
  unfold __init__. rewrite Hv. simpl.
  unfold RasterConnection.__init__. simpl. rewrite Hopen. reflexivity.
Qed.

(** X11.  Only [FileNotFoundError] is rewritten: any other exception of the
    table reader leaves [__init__] as it is. *)
Theorem treemap_init_reader_error_unchanged
    (treemap_path tree_table_path v : string)
    (base0 : RasterConnection.t) (e : exn) :
  v = "2014"%string \/ v = "2016"%string ->
  RasterConnection.__init__ treemap_path "rioxarray" = Ok base0 ->
  exn_cls e <> FileNotFoundError ->
  (endswith tree_table_path ".csv" = true
   /\ dd_read_csv tree_table_path = Raise e)
  \/ (endswith tree_table_path ".csv" = false
      /\ endswith tree_table_path ".parquet" = true
      /\ dd_read_parquet tree_table_path = Raise e) ->
  __init__ treemap_path tree_table_path v = Raise e.
Proof.
  intros Hv Hbase Hcls Hread. apply version_valid_iff in Hv.
  unfold __init__. rewrite Hv, Hbase. simpl.
  unfold try_except_FileNotFoundError.
  destruct Hread as [[Hcsv Hr] | (Hcsv & Hpq & Hr)].
  - rewrite Hcsv, Hr. destruct (exn_cls e); try reflexivity. congruence.
  - rewrite Hcsv, Hpq, Hr. destruct (exn_cls e); try reflexivity.
    congruence.
Qed.

(** X12.  The raster methods a tree-map connection inherits work on it: its
    raster attributes are set, and [extract_window] never returns
    [None]. *)
Theorem treemap_connection_is_a_raster_connection
    (treemap_path tree_table_path v : string) (self : t)
    (roi : GeoDataFrame) (pp : Q) (ipc : Z) :
  __init__ treemap_path tree_table_path v = Ok self ->
  RasterConnection.connection_type (base self) = "rioxarray"%string
  /\ (exists a, RasterConnection.getattrs (base self) = Ok a
                /\ open_rasterio treemap_path
                   = Ok (RasterConnection.raster a))
  /\ value (RasterConnection.extract_window (base self) roi pp ipc)
     <> Ok None.
Proof.
  unfold __init__.
  destruct (existsb (String.eqb v) ["2014"; "2016"]%string); simpl;
    [| discriminate].
  destruct (RasterConnection.__init__ treemap_path "rioxarray")
    as [base0 | e] eqn:Hbase; simpl; [| discriminate].
  destruct (try_except_FileNotFoundError _ _) as [table | e];
    simpl; [| discriminate].
  intros H. injection H as <-. simpl.
  destruct (init_inv _ _ Hbase) as [Hct (r & Hopen & Hop)].
  split; [exact Hct |]. split.
  - eexists. split; [apply getattrs_opened; exact Hop | exact Hopen].
  - assert (Hrun :
      RasterConnection.extract_window base0 roi pp ipc
      = (w <- RasterConnection._extract_window_rioxarray base0 roi pp ipc ;;
         ret (Some w))).
    { unfold RasterConnection.extract_window. rewrite Hct. reflexivity. }
    rewrite Hrun, value_bind.
    destruct (value (RasterConnection._extract_window_rioxarray
                       base0 roi pp ipc)); simpl; discriminate.
Qed.
End TreeMapInit.

(** ** [query_trees_by_plots], continued *)

Section QueryMore.
Context {B : Backend} {T : TabularBackend}.
Context {S : SampleBackend} {L : DaskLayout}.
Import TreeMapConnection.

Lemma surviving_In (self : t) (plots : list Plots.row) (r : Table.row) :
  In r (surviving self plots)
  <-> In r (_tree_table self)
      /\ In (linkage self r) (map Plots.PLOT_ID plots).
Proof.
  unfold surviving. rewrite filter_In.
  destruct (in_dec Z.eq_dec _ _); intuition discriminate.
Qed.

Lemma query_data (self : t) (plots : list Plots.row)
    (sample : TreeSample) :
  query_trees_by_plots self plots = Ok sample ->
  frame_rows (data sample)
  = map (fun r => metric_of (linkage self r) r) (surviving self plots).
Proof.
  intros H. unfold query_trees_by_plots, convert_treemap_data_to_fastfuels
    in H.
  rewrite (sample_holds_frame _ H). unfold metric_data_of, trees. simpl.
  rewrite trees_of_surviving, map_map. reflexivity.
Qed.

Lemma length_index_of_partitions (keep : Table.row -> bool)
    (partitions : list (list Table.row)) :
  List.length
    (List.concat
       (map (fun partition =>
               map Z.of_nat
                 (seq 0 (List.length (filter keep partition))))
          partitions))
  = List.length (filter keep (List.concat partitions)).
Proof.
  induction partitions as [| p ps IH]; simpl; [reflexivity |].
  rewrite filter_app, !length_app, length_map, length_seq, IH.
  reflexivity.
Qed.

(** The index of [trees] has one label per row. *)
Lemma computed_index_length (self : t) (plots : list Plots.row) :
  List.length (computed_index self plots)
  = List.length (trees_of self plots).
Proof.
  unfold computed_index. cbv zeta.
  rewrite length_index_of_partitions, partitions_concat,
    filter_is_surviving, trees_of_surviving, length_map.
  reflexivity.
Qed.


(** X14.  The query is a semi-join: a plot id that occurs many times
    among the plots brings each of its trees once, so a returned sample
    never has more rows than the table, and exactly as many as the table
    has rows with a key among the plot ids; its index has one label per
    row. *)
Theorem query_has_one_row_per_matching_tree
    (self : t) (plots : list Plots.row) (sample : TreeSample) :
  query_trees_by_plots self plots = Ok sample ->
  List.length (frame_rows (data sample))
  = List.length (surviving self plots)
  /\ (List.length (frame_rows (data sample))
      <= List.length (_tree_table self))%nat
  /\ List.length (frame_index (data sample))
     = List.length (frame_rows (data sample)).
Proof.
  intros H. rewrite (query_data _ _ H), length_map.
  split; [reflexivity |]. split.
  - unfold surviving. apply filter_length_le.
  - unfold query_trees_by_plots, convert_treemap_data_to_fastfuels in H.
    rewrite (sample_holds_frame _ H). unfold metric_data_of, trees. simpl.
    rewrite computed_index_length, trees_of_surviving, length_map.
    reflexivity.
Qed.

(** X15.  A returned sample is empty exactly when no table row has its
    key among the plot ids; so it is when the frame of plots is empty. *)
Theorem query_empty_iff
    (self : t) (plots : list Plots.row) (sample : TreeSample) :
  query_trees_by_plots self plots = Ok sample ->
  (frame_rows (data sample) = []
   <-> forall r, In r (_tree_table self) ->
                 ~ In (linkage self r) (map Plots.PLOT_ID plots))
  /\ (plots = [] -> frame_rows (data sample) = []).
Proof.
  intros H.
  assert (Hiff :
    frame_rows (data sample) = []
    <-> forall r, In r (_tree_table self) ->
                  ~ In (linkage self r) (map Plots.PLOT_ID plots)).
  { rewrite (query_data _ _ H). split.
    - intros Hnil r Hin Hkey.
      assert (Hs : In r (surviving self plots))
        by (apply surviving_In; auto).
      apply (in_map (fun r => metric_of (linkage self r) r)) in Hs.
      rewrite Hnil in Hs. exact Hs.
    - intros Hnone.
      destruct (surviving self plots) as [| r l] eqn:Hs; [reflexivity |].
      exfalso. assert (Hr : In r (surviving self plots))
        by (rewrite Hs; simpl; auto).
      apply surviving_In in Hr as [Hin Hkey]. exact (Hnone r Hin Hkey). }
  split; [exact Hiff |].
  intros ->. apply Hiff. intros r _ [].
Qed.

(** X16.  A tree keeps its row from one query to the next: a row of the
    sample returned for one frame of plots is, as it is and with the same
    [TREE_ID], a row of the sample returned for any other frame that has
    its [PLOT_ID]. *)
Theorem query_rows_are_stable_across_filters
    (self : t) (plots plots' : list Plots.row)
    (sample sample' : TreeSample) (m : Metric.row) :
  query_trees_by_plots self plots = Ok sample ->
  query_trees_by_plots self plots' = Ok sample' ->
  In m (frame_rows (data sample)) ->
  In (Metric.PLOT_ID m) (map Plots.PLOT_ID plots') ->
  In m (frame_rows (data sample')).
Proof.
  intros H H'. rewrite (query_data _ _ H), (query_data _ _ H').
  intros Hm Hkey.
  apply in_map_iff in Hm as (r & <- & Hr).
  unfold metric_of in Hkey. simpl in Hkey.
  apply surviving_In in Hr as [Hin _].
  apply in_map_iff. exists r. split; [reflexivity |].
  apply surviving_In. split; assumption.
Qed.

Lemma treemap_init_key (treemap_path tree_table_path v : string)
    (self : t) :
  __init__ treemap_path tree_table_path v = Ok self ->
  (v = "2014"%string \/ v = "2016"%string)
  /\ _tl_key self
     = if String.eqb v "2014" then "tl_id"%string else "tm_id"%string.
Proof.
  unfold __init__.
  destruct (existsb (String.eqb v) ["2014"; "2016"]%string) eqn:Hv; simpl;
    [| discriminate].
  apply version_valid_iff in Hv.
  destruct (RasterConnection.__init__ treemap_path "rioxarray"); simpl;
    [| discriminate].
  destruct (try_except_FileNotFoundError _ _); simpl; [| discriminate].
  intros H. injection H as <-. split; [exact Hv | reflexivity].
Qed.

(** X17.  The version given at construction picks the linkage column of
    every later query: the [PLOT_ID] column of a returned sample is the
    [tl_id] of the surviving table rows for "2014" and their [tm_id] for
    "2016". *)
Theorem version_picks_linkage_column
    (treemap_path tree_table_path v : string) (self : t)
    (plots : list Plots.row) (sample : TreeSample) :
  __init__ treemap_path tree_table_path v = Ok self ->
  query_trees_by_plots self plots = Ok sample ->
  (v = "2014"%string
   /\ map Metric.PLOT_ID (frame_rows (data sample))
      = map Table.tl_id (surviving self plots))
  \/ (v = "2016"%string
      /\ map Metric.PLOT_ID (frame_rows (data sample))
         = map Table.tm_id (surviving self plots)).
Proof.
  intros Hinit H. apply treemap_init_key in Hinit as [Hv Hkey].
  rewrite (query_data _ _ H), map_map. cbn [metric_of Metric.PLOT_ID].
  unfold linkage. rewrite Hkey.
  destruct Hv as [-> | ->]; [left | right]; split; reflexivity.
Qed.
End QueryMore.

(** ** [get_plots_dataframe_from_raster] *)

Lemma length_concat_rows {A} (grid : list (list A)) (width : nat) :
  Forall (fun row => List.length row = width) grid ->
  List.length (List.concat grid) = (List.length grid * width)%nat.
Proof.
  induction 1 as [| row grid Hrow _ IH]; simpl; [reflexivity |].
  rewrite length_app, IH, Hrow. reflexivity.
Qed.

Lemma nth_concat_rows {A} (grid : list (list A)) (width i j : nat) (d : A) :
  Forall (fun row => List.length row = width) grid ->
  (i < List.length grid)%nat -> (j < width)%nat ->
  nth (i * width + j) (List.concat grid) d = nth j (nth i grid []) d.
Proof.
  intros Hgrid. revert i.
  induction Hgrid as [| row grid Hrow _ IH]; intros i Hi Hj; simpl in Hi;
    [lia |].
  destruct i as [| i]; simpl.
  - apply app_nth1. lia.
  - rewrite <- Nat.add_assoc, <- Hrow, app_nth2_plus, Hrow.
    apply IH; lia.
Qed.

Lemma meshgrid_shapes (x y : list Q) :
  Forall (fun row => List.length row = List.length x) (fst (meshgrid x y))
  /\ Forall (fun row => List.length row = List.length x)
       (snd (meshgrid x y))
  /\ List.length (fst (meshgrid x y)) = List.length y
  /\ List.length (snd (meshgrid x y)) = List.length y.
Proof.
  unfold meshgrid. simpl. rewrite !length_map.
  repeat split; apply Forall_forall; intros row Hrow;
    apply in_map_iff in Hrow as (yi & <- & _);
    [reflexivity | apply length_map].
Qed.

Lemma map_fst_combine_same_length {A C} (l : list A) (l' : list C) :
  List.length l = List.length l' -> map fst (combine l l') = l.
Proof.
  revert l'. induction l as [| a l IH]; intros [| c l'] Hlen; simpl in *;
    try discriminate; [reflexivity |].
  f_equal. apply IH. lia.
Qed.

Section PlotIndexFacts.
Context {B : Backend} {G : GridBackend}.
Import PlotIndex.

(** The points the code builds, one per cell. *)
Lemma points_length (raster : DataArray) :
  List.length
    (map (fun '(x, y) => (x, y))
       (combine (ravel (fst (meshgrid (da_coords_x raster)
                                      (da_coords_y raster))))
                (ravel (snd (meshgrid (da_coords_x raster)
                                      (da_coords_y raster))))))
  = (List.length (da_coords_y raster)
     * List.length (da_coords_x raster))%nat.
Proof.
  destruct (meshgrid_shapes (da_coords_x raster) (da_coords_y raster))
    as (Hxx & Hyy & Lxx & Lyy).
  unfold ravel.
  rewrite length_map, length_combine, (length_concat_rows Hxx),
    (length_concat_rows Hyy), Lxx, Lyy.
  apply Nat.min_id.
Qed.

Lemma plots_inv (raster : DataArray) (gdf : plots_gdf) :
  get_plots_dataframe_from_raster raster = Ok gdf ->
  List.length (da_values_ravel raster)
  = (List.length (da_coords_y raster)
     * List.length (da_coords_x raster))%nat
  /\ gdf = {| rows :=
               map (fun '(id, point) =>
                      {| Plots.PLOT_ID := id; Plots.geometry := point |})
                 (combine (da_values_ravel raster)
                    (map (fun '(x, y) => (x, y))
                       (combine
                          (ravel (fst (meshgrid (da_coords_x raster)
                                                (da_coords_y raster))))
                          (ravel (snd (meshgrid (da_coords_x raster)
                                                (da_coords_y raster)))))));
             crs := rio_crs raster |}.
Proof.
  unfold get_plots_dataframe_from_raster, GeoDataFrame_of.
  cbv zeta. simpl.
  destruct (Nat.eqb _ _) eqn:Hlen; [| discriminate].
  apply Nat.eqb_eq in Hlen. intros H. injection H as <-.
  split; [| reflexivity].
  rewrite <- Hlen. apply (points_length raster).
Qed.

Lemma plots_ids (raster : DataArray) (gdf : plots_gdf) :
  get_plots_dataframe_from_raster raster = Ok gdf ->
  map Plots.PLOT_ID (rows gdf) = da_values_ravel raster.
Proof.
  intros H. destruct (plots_inv _ H) as [Hlen ->]. simpl.
  pose proof (points_length raster) as Hp. simpl in Hp.
  rewrite map_map.
  rewrite <- (map_fst_combine_same_length
                (da_values_ravel raster)
                (map (fun '(x, y) => (x, y))
                   (combine
                      (ravel (map (fun _ => da_coords_x raster)
                                (da_coords_y raster)))
                      (ravel (map (fun yi =>
                                     map (fun _ => yi)
                                       (da_coords_x raster))
                                (da_coords_y raster))))))
    at 2 by (rewrite Hp, Hlen; reflexivity).
  apply map_ext. intros [id point]. reflexivity.
Qed.

(** X18.  The plot frame is built exactly when the raster has as many pixel
    values as cells, [len(y) * len(x)]; otherwise the frame constructor
    raises [ValueError].  A frame that is built has one row per cell, its
    [PLOT_ID] column is the pixel values as they are, in raveled order,
    with nothing removed or merged, and it carries the raster's CRS. *)
Theorem plots_one_row_per_cell (raster : DataArray) :
  ((exists gdf, get_plots_dataframe_from_raster raster = Ok gdf)
   <-> List.length (da_values_ravel raster)
       = (List.length (da_coords_y raster)
          * List.length (da_coords_x raster))%nat)
  /\ ((forall gdf, get_plots_dataframe_from_raster raster <> Ok gdf) ->
      exists msg,
        get_plots_dataframe_from_raster raster
        = Raise (Exn ValueError msg))
  /\ forall gdf,
      get_plots_dataframe_from_raster raster = Ok gdf ->
      List.length (rows gdf)
      = (List.length (da_coords_y raster)
         * List.length (da_coords_x raster))%nat
      /\ map Plots.PLOT_ID (rows gdf) = da_values_ravel raster
      /\ crs gdf = rio_crs raster.
Proof.
  split; [| split].
  - split.
    + intros [gdf H]. apply (plots_inv _ H).
    + intros Hlen. unfold get_plots_dataframe_from_raster, GeoDataFrame_of.
      cbv zeta. simpl.
      pose proof (points_length raster) as Hp. simpl in Hp.
      rewrite <- Hlen in Hp. apply Nat.eqb_eq in Hp. rewrite Hp.
      eexists. reflexivity.
  - intros Hnone. unfold get_plots_dataframe_from_raster, GeoDataFrame_of in *.
    cbv zeta in *. simpl in *.
    destruct (Nat.eqb _ _); [| eexists; reflexivity].
    exfalso. eapply Hnone. reflexivity.
  - intros gdf H. split; [| split].
    + destruct (plots_inv _ H) as [Hlen ->]. simpl.
      pose proof (points_length raster) as Hp. simpl in Hp.
      rewrite length_map, length_combine, Hp, Hlen. apply Nat.min_id.
    + apply (plots_ids _ H).
    + destruct (plots_inv _ H) as [_ ->]. reflexivity.
Qed.

(** X19.  Cell [(i, j)] of the grid, row [i] and column [j], is row
    [i * len(x) + j] of the frame: a point at [(x[j], y[i])] with the
    pixel value of that position as its [PLOT_ID]. *)
Theorem plots_cell_is_point_at_its_coordinates
    (raster : DataArray) (gdf : plots_gdf) (i j : nat) :
  get_plots_dataframe_from_raster raster = Ok gdf ->
  (i < List.length (da_coords_y raster))%nat ->
  (j < List.length (da_coords_x raster))%nat ->
  nth_error (rows gdf) (i * List.length (da_coords_x raster) + j)
  = Some {| Plots.PLOT_ID :=
              nth (i * List.length (da_coords_x raster) + j)
                (da_values_ravel raster) 0%Z;
            Plots.geometry :=
              (nth j (da_coords_x raster) 0%Q,
               nth i (da_coords_y raster) 0%Q) |}.
Proof.
  intros H Hi Hj. destruct (plots_inv _ H) as [Hlen ->]. simpl.
  set (x := da_coords_x raster) in *. set (y := da_coords_y raster) in *.
  set (k := (i * List.length x + j)%nat).
  destruct (meshgrid_shapes x y) as (Hxx & Hyy & Lxx & Lyy). simpl in *.
  pose proof (points_length raster) as Hp. simpl in Hp.
  fold x y in Hp.
  assert (Hk : (k < List.length y * List.length x)%nat) by (unfold k; nia).
  set (points := map (fun '(x0, y0) => (x0, y0)) (combine _ _)) in *.
  set (mk := fun '(id, point) =>
               {| Plots.PLOT_ID := id; Plots.geometry := point |}).
  rewrite (nth_error_nth' _ (mk (0%Z, (0%Q, 0%Q))))
    by (rewrite length_map, length_combine, Hp, Hlen, Nat.min_id; exact Hk).
  f_equal. rewrite map_nth, combine_nth by (rewrite Hp, Hlen; reflexivity).
  unfold mk. f_equal. unfold points.
  change (0%Q, 0%Q) with ((fun '(x0, y0) => (x0, y0)) (0%Q, 0%Q)).
  rewrite map_nth.
  rewrite combine_nth
    by (unfold ravel;
        rewrite (length_concat_rows Hxx), (length_concat_rows Hyy), Lxx, Lyy;
        reflexivity).
  unfold ravel, k.
  rewrite (nth_concat_rows _ Hxx), (nth_concat_rows _ Hyy)
    by (rewrite ?Lxx, ?Lyy; assumption).
  f_equal.
  - f_equal. rewrite (nth_indep _ [] x) by (rewrite length_map; exact Hi).
    exact (map_nth (fun _ : Q => x) y 0%Q i).
  - rewrite (nth_indep _ [] (map (fun _ => 0%Q) x))
      by (rewrite length_map; exact Hi).
    rewrite (map_nth (fun yi => map (fun _ => yi) x) y 0%Q i).
    rewrite (nth_indep _ 0%Q ((fun _ => nth i y 0%Q) 0%Q))
      by (rewrite length_map; exact Hj).
    apply (map_nth (fun _ => nth i y 0%Q) x 0%Q j).
Qed.
End PlotIndexFacts.

(** ** From the raster to the trees *)

Section RasterToTrees.
Context {B : Backend} {G : GridBackend} {T : TabularBackend}.
Context {S : SampleBackend} {L : DaskLayout}.
Import PlotIndex TreeMapConnection.

(** X20.  Querying with the plot frame of a raster: a returned sample
    holds the trees of exactly those table rows whose linkage key is the
    value of some pixel of the raster, nodata pixels included; the frame of
    plots is not filtered on the way. *)
Theorem query_from_raster_plots
    (self : t) (raster : DataArray) (gdf : plots_gdf)
    (sample : TreeSample) (m : Metric.row) :
  get_plots_dataframe_from_raster raster = Ok gdf ->
  query_trees_by_plots self (rows gdf) = Ok sample ->
  In m (frame_rows (data sample))
  <-> exists r,
      In r (_tree_table self)
      /\ In (linkage self r) (da_values_ravel raster)
      /\ m = metric_of (linkage self r) r.
Proof.
  intros H Hq. rewrite (query_data _ _ Hq), in_map_iff. split.
  - intros (r & <- & Hr). apply surviving_In in Hr as [Hin Hkey].
    rewrite (plots_ids _ H) in Hkey. exists r. auto.
  - intros (r & Hin & Hkey & ->). exists r. split; [reflexivity |].
    apply surviving_In. rewrite (plots_ids _ H). auto.
Qed.
End RasterToTrees.

(** ** The further properties on the small backend *)

Module MoreExamples.
Import RasterConnection Flat FlatGrid.

Lemma raster_init_succeeds_iff_witness :
  __init__ "treemap.tif" "rioxarray" = Ok conn
  /\ ("rioxarray"%string = "rioxarray"%string
      /\ exists r, open_rasterio "treemap.tif" = Ok r
                   /\ conn = {| connection_type := "rioxarray";
                                opened := Some {|
                                  raster := r;
                                  raster_crs := rio_crs r;
                                  raster_resolution :=
                                    Qabs (fst (rio_resolution r));
                                  raster_bounds := rio_bounds r;
                                  raster_dtype := da_dtype r |} |}).
Proof.
  split; [reflexivity |].
  apply (proj1 (raster_init_succeeds_iff
                  "treemap.tif" "rioxarray" conn)).
  reflexivity.
Defined.

Lemma raster_init_raises_iff_witness :
  __init__ "nowhere.tif" "rioxarray"
  = Raise (Exn (ForeignError "RasterioIOError")
             "nowhere.tif: No such file or directory")
  /\ __init__ "nowhere.tif" "gdal"
     = Raise (Exn ValueError "Connection type gdal not supported.").
Proof.
  split.
  - apply (proj2 (raster_init_raises_iff (B := backend)
                    "nowhere.tif" "rioxarray" _)).
    right. split; reflexivity.
  - apply (proj2 (raster_init_raises_iff (B := backend)
                    "nowhere.tif" "gdal" _)).
    left. split; [discriminate | reflexivity].
Defined.

Lemma constructed_connection_has_attributes_witness :
  __init__ "treemap.tif" "rioxarray" = Ok conn
  /\ exists a,
      getattrs conn = Ok a
      /\ open_rasterio "treemap.tif" = Ok (raster a)
      /\ (0 <= raster_resolution a)%Q
      /\ raster_bounds a = rio_bounds (raster a)
      /\ raster_crs a = rio_crs (raster a).
Proof.
  split; [reflexivity |].
  apply (constructed_connection_has_attributes
           "treemap.tif" "rioxarray" (self := conn)).
  reflexivity.
Defined.

Lemma contains_raises_iff_witness :
  @opened strict strict_conn = Some strict_attrs
  /\ @gdf_to_crs strict naive_roi 0%Z
     = Raise (Exn ValueError
                "Cannot transform naive geometries.  Please set a crs on the object first.")
  /\ value (@roi_within_raster_bounds strict strict_conn naive_roi)
     = Raise (Exn ValueError
                "Cannot transform naive geometries.  Please set a crs on the object first.").
Proof.
  split; [reflexivity |]. split; [reflexivity |].
  apply (proj2 (@contains_raises_iff strict strict_conn strict_attrs
                  naive_roi _ eq_refl)).
  reflexivity.
Defined.

Lemma contains_is_inclusive_and_antitone_witness :
  opened conn = Some conn_attrs
  /\ gdf_to_crs inner_roi (raster_crs conn_attrs) = Ok inner_roi
  /\ gdf_to_crs east_roi (raster_crs conn_attrs) = Ok east_roi
  /\ box_within (gdf_total_bounds inner_roi) (gdf_total_bounds east_roi)
  /\ value (roi_within_raster_bounds conn east_roi) = Ok true
  /\ value (roi_within_raster_bounds conn inner_roi) = Ok true.
Proof.
  assert (Hin : box_within (gdf_total_bounds inner_roi)
                  (gdf_total_bounds east_roi)).
  { unfold box_within, Qle. simpl. lia. }
  split; [reflexivity |]. split; [reflexivity |]. split; [reflexivity |].
  split; [exact Hin |]. split; [reflexivity |].
  apply (proj2 (@contains_is_inclusive_and_antitone backend conn conn_attrs
                  inner_roi east_roi inner_roi east_roi
                  eq_refl eq_refl eq_refl) Hin).
  reflexivity.
Defined.

Lemma extraction_stops_at_first_failure_witness :
  opened conn = Some conn_attrs
  /\ value (_extract_window_rioxarray conn outside_roi 10 2)
     = Raise (Exn (ForeignError "NoDataInBounds") "No data found in bounds.")
  /\ exists pre c,
      calls (_extract_window_rioxarray conn outside_roi 10 2) = pre ++ [c]
      /\ raised_by c
           (Exn (ForeignError "NoDataInBounds") "No data found in bounds.")
      /\ Forall returned pre.
Proof.
  split; [reflexivity |]. split; [reflexivity |].
  apply (proj1 (@extraction_stops_at_first_failure backend conn conn_attrs
                  outside_roi 10 2 eq_refl)).
  reflexivity.
Defined.

(** The raster is clipped once and nothing is reprojected or clipped
    after the failure. *)
Example outside_roi_log :
  map is_reprojection
    (calls (_extract_window_rioxarray conn outside_roi 10 2))
  = [false].
Proof. reflexivity. Qed.

Lemma extraction_calls_when_crs_differ_witness :
  opened conn = Some conn_attrs
  /\ gdf_crs shifted_roi <> raster_crs conn_attrs
  /\ List.length (calls (_extract_window_rioxarray conn shifted_roi 10 2))
     = 4%nat.
Proof.
  assert (Hne : gdf_crs shifted_roi <> raster_crs conn_attrs)
    by (simpl; discriminate).
  split; [reflexivity |]. split; [exact Hne |].
  rewrite (@extraction_calls_when_crs_differ backend conn conn_attrs
             shifted_roi east_roi 10 2
             (fallback (@rio_clip_box backend raster0
                          (pad (g_bounds east_roi) 10)))
             (fallback
                (@rio_reproject backend
                   (fallback (@rio_clip_box backend raster0
                                (pad (g_bounds east_roi) 10)))
                   1000%Z))
             eq_refl Hne eq_refl eq_refl eq_refl).
  reflexivity.
Defined.

Lemma interpolation_padding_enters_last_clip_only_witness :
  opened conn = Some conn_attrs
  /\ value (_extract_window_rioxarray conn shifted_roi 10 2)
     = Ok shifted_clip
  /\ exists pre window_reprojected,
      forall ipc',
        _extract_window_rioxarray conn shifted_roi 10 ipc'
        = (pre ++ [CallClipBox window_reprojected
                     (pad (gdf_total_bounds shifted_roi)
                        (inject_Z ipc' * raster_resolution conn_attrs))],
           rio_clip_box window_reprojected
             (pad (gdf_total_bounds shifted_roi)
                (inject_Z ipc' * raster_resolution conn_attrs))).
Proof.
  split; [reflexivity |]. split; [reflexivity |].
  apply (@interpolation_padding_enters_last_clip_only backend conn
           conn_attrs shifted_roi 10 2 shifted_clip eq_refl eq_refl).
Defined.
End MoreExamples.

Module MoreTreeExamples.
Import TreeMapConnection Flat FlatSamples FlatGrid.

Lemma treemap_init_succeeds_iff_witness :
  __init__ "treemap.tif" "trees.parquet" "2016" = Ok tm_conn_2016
  /\ ~ (exists self, __init__ "treemap.tif" "trees.csv.bak" "2016" = Ok self).
Proof.
  split.
  - apply (proj2 (treemap_init_succeeds_iff
                    "treemap.tif" "trees.parquet" "2016" tm_conn_2016)).
    split; [right; reflexivity |].
    exists conn, tree_table. split; [reflexivity |].
    split; [| reflexivity].
    right. split; [| split; [exists "trees"%string; reflexivity
                            | reflexivity]].
    intros H. apply endswith_iff in H. discriminate.
  - intros [self H].
    apply (proj1 (treemap_init_succeeds_iff
                    "treemap.tif" "trees.csv.bak" "2016" self)) in H
      as [_ (b & tb & _ & [[Hc _] | (_ & Hp & _)] & _)];
      apply endswith_iff in Hc || apply endswith_iff in Hp; discriminate.
Defined.

Lemma treemap_init_raster_error_first_witness :
  ("2014"%string = "2014"%string \/ "2014"%string = "2016"%string)
  /\ open_rasterio "nowhere.tif"
     = Raise (Exn (ForeignError "RasterioIOError")
                "nowhere.tif: No such file or directory")
  /\ __init__ "nowhere.tif" "missing.txt" "2014"
     = Raise (Exn (ForeignError "RasterioIOError")
                "nowhere.tif: No such file or directory").
Proof.
  split; [left; reflexivity |]. split; [reflexivity |].
  apply (treemap_init_raster_error_first
           "nowhere.tif" "missing.txt" (v := "2014")
           (or_introl eq_refl)).
  reflexivity.
Defined.

Lemma treemap_init_reader_error_unchanged_witness :
  RasterConnection.__init__ "treemap.tif" "rioxarray" = Ok conn
  /\ endswith "trees.csv" ".csv" = true
  /\ @dd_read_csv tabular_denied "trees.csv"
     = Raise (Exn (ForeignError "PermissionError")
                "[Errno 13] Permission denied: trees.csv")
  /\ @__init__ backend tabular_denied "treemap.tif" "trees.csv" "2014"
     = Raise (Exn (ForeignError "PermissionError")
                "[Errno 13] Permission denied: trees.csv").
Proof.
  split; [reflexivity |]. split; [reflexivity |]. split; [reflexivity |].
  apply (@treemap_init_reader_error_unchanged backend tabular_denied
           "treemap.tif" "trees.csv" "2014" conn _
           (or_introl eq_refl) eq_refl).
  - simpl. discriminate.
  - left. split; reflexivity.
Defined.

Lemma treemap_connection_is_a_raster_connection_witness :
  __init__ "treemap.tif" "trees.csv" "2014" = Ok tm_conn
  /\ RasterConnection.connection_type (base tm_conn) = "rioxarray"%string
  /\ value (RasterConnection.extract_window (base tm_conn) east_roi 10 2)
     <> Ok None.
Proof.
  split; [reflexivity |].
  destruct (@treemap_connection_is_a_raster_connection backend tabular
              "treemap.tif" "trees.csv" "2014" tm_conn east_roi 10 2
              eq_refl) as (Hct & _ & Hnone).
  split; [exact Hct | exact Hnone].
Defined.

Example query_rows_of_plot_7 :
  query_trees_by_plots tm_conn [plot 7] = Ok sample_7
  /\ frame_rows (data sample_7)
     = [metric_of 7 (row 1 7 8 15 12 40 6)%float].
Proof. split; reflexivity. Qed.


Lemma query_has_one_row_per_matching_tree_witness :
  query_trees_by_plots tm_conn [plot 5; plot 5; plot 5] = Ok sample_5
  /\ List.length (frame_rows (data sample_5)) = 2%nat
  /\ (List.length (frame_rows (data sample_5))
      <= List.length (_tree_table tm_conn))%nat
  /\ List.length (frame_index (data sample_5))
     = List.length (frame_rows (data sample_5)).
Proof.
  split; [reflexivity |].
  apply (@query_has_one_row_per_matching_tree backend schema layout
           tm_conn [plot 5; plot 5; plot 5] sample_5 eq_refl).
Defined.

Lemma query_empty_iff_witness :
  query_trees_by_plots tm_conn [] = Ok sample_none
  /\ frame_rows (data sample_none) = [].
Proof.
  split; [reflexivity |].
  apply (proj2 (@query_empty_iff backend schema layout
                  tm_conn [] sample_none eq_refl)).
  reflexivity.
Defined.

Lemma query_rows_are_stable_across_filters_witness :
  query_trees_by_plots tm_conn [plot 7] = Ok sample_7
  /\ query_trees_by_plots tm_conn [plot 5; plot 7] = Ok sample_5_7
  /\ In (metric_of 7 (row 1 7 8 15 12 40 6)%float)
       (frame_rows (data sample_7))
  /\ In (Metric.PLOT_ID (metric_of 7 (row 1 7 8 15 12 40 6)%float))
       (map Plots.PLOT_ID [plot 5; plot 7])
  /\ In (metric_of 7 (row 1 7 8 15 12 40 6)%float)
       (frame_rows (data sample_5_7)).
Proof.
  assert (H7 : In (metric_of 7 (row 1 7 8 15 12 40 6)%float)
                 (frame_rows (data sample_7)))
    by (left; reflexivity).
  assert (Hkey : In (Metric.PLOT_ID
                       (metric_of 7 (row 1 7 8 15 12 40 6)%float))
                   (map Plots.PLOT_ID [plot 5; plot 7]))
    by (right; left; reflexivity).
  split; [reflexivity |]. split; [reflexivity |].
  split; [exact H7 |]. split; [exact Hkey |].
  apply (@query_rows_are_stable_across_filters backend schema layout
           tm_conn [plot 7] [plot 5; plot 7] sample_7 sample_5_7 _
           eq_refl eq_refl H7 Hkey).
Defined.

Lemma version_picks_linkage_column_witness :
  __init__ "treemap.tif" "trees.parquet" "2016" = Ok tm_conn_2016
  /\ query_trees_by_plots tm_conn_2016 [plot 5] = Ok sample_5
  /\ map Metric.PLOT_ID (frame_rows (data sample_5))
     = map Table.tm_id (surviving tm_conn_2016 [plot 5]).
Proof.
  split; [reflexivity |]. split; [reflexivity |].
  destruct (@version_picks_linkage_column backend tabular schema layout
              "treemap.tif" "trees.parquet" "2016" tm_conn_2016 [plot 5]
              sample_5 eq_refl eq_refl)
    as [[H _] | [_ H]]; [discriminate | exact H].
Defined.

Example small_window_plots :
  PlotIndex.get_plots_dataframe_from_raster small_window
  = Ok small_gdf.
Proof. reflexivity. Qed.

Lemma plots_one_row_per_cell_witness :
  PlotIndex.get_plots_dataframe_from_raster small_window
  = Ok small_gdf
  /\ List.length small_plots = (2 * 3)%nat
  /\ map Plots.PLOT_ID small_plots = [5; 9; 5; 9; 5; 9]%Z.
Proof.
  split; [reflexivity |].
  destruct (proj2 (proj2 (@plots_one_row_per_cell backend grid
                            small_window))
              small_gdf
              eq_refl)
    as (Hlen & Hids & _).
  split; [exact Hlen | exact Hids].
Defined.

Lemma plots_cell_is_point_at_its_coordinates_witness :
  PlotIndex.get_plots_dataframe_from_raster small_window
  = Ok small_gdf
  /\ (1 < List.length (da_coords_y small_window))%nat
  /\ (2 < List.length (da_coords_x small_window))%nat
  /\ nth_error small_plots (1 * 3 + 2)
     = Some {| Plots.PLOT_ID := 9; Plots.geometry := (150 # 2, 30 # 2) |}.
Proof.
  assert (Hi : (1 < List.length (da_coords_y small_window))%nat)
    by (simpl; lia).
  assert (Hj : (2 < List.length (da_coords_x small_window))%nat)
    by (simpl; lia).
  split; [reflexivity |]. split; [exact Hi |]. split; [exact Hj |].
  apply (@plots_cell_is_point_at_its_coordinates backend grid small_window
           small_gdf
           1 2 eq_refl Hi Hj).
Defined.

Lemma query_from_raster_plots_witness :
  PlotIndex.get_plots_dataframe_from_raster small_window
  = Ok small_gdf
  /\ query_trees_by_plots tm_conn (PlotIndex.rows small_gdf) = Ok sample_5
  /\ In (metric_of 5 (row 2 5 12 15 nan 35 6)%float)
       (frame_rows (data sample_5)).
Proof.
  split; [reflexivity |]. split; [reflexivity |].
  apply (proj2 (@query_from_raster_plots backend grid schema layout tm_conn
                  small_window small_gdf sample_5 _ eq_refl eq_refl)).
  exists (row 2 5 12 15 nan 35 6)%float.
  split; [right; right; left; reflexivity |].
  split; [left; reflexivity | reflexivity].
Defined.

(** Plot 9 has no tree in the table, plot 7 no pixel in the window. *)
Example trees_of_small_window :
  map Trees.TREE_ID (trees_of tm_conn small_plots) = [0; 2]%Z.
Proof. reflexivity. Qed.
End MoreTreeExamples.

(** ** Padding and the boxes the code asks for *)

Section RequestedBoxes.
Context {B : Backend}.
Import RasterConnection.




End RequestedBoxes.

Module PaddingExamples.
Import RasterConnection.

Example cells_conn_is_constructed :
  @__init__ Cells.backend "grid.tif" "rioxarray" = Ok Cells.conn.
Proof. reflexivity. Qed.


End PaddingExamples.
